(** * mylib: epoch/ISO time conversions and the histogram helper

    A shallow embedding of [src/mylib/mylib.py]: [anyToSecs], [buckets],
    [credentials], [fromTimeStamp], [millisToSecs], [secsToMillis],
    [strfTime], [strpSecs] and [verbose_1], together with
    the parts of the Python runtime they call ([re.fullmatch] on the two
    patterns of [strpSecs], [time.strptime] on its one format,
    [calendar.timegm], [datetime.fromtimestamp] with a pytz zone,
    [datetime.strftime], [int()], [float()] and the [.3f] format).

    Python values are modelled as follows.
    - [int] is [Z] (unbounded); [bool] is a subclass of [int].
    - [float] is IEEE binary64, the kernel's primitive [float].
    - [str] is [string]; its characters are code points below 256, where the
      class [\d] of [re] is exactly [0-9].
    - A raised exception is the [Raise] case of [result]. *)

From Stdlib Require Import ZArith Bool List String Ascii Lia Floats.
From Stdlib Require Import Sorting.Permutation Sorting.Sorted.
Import ListNotations.
Local Open Scope string_scope.
Local Open Scope Z_scope.

(** ** Exceptions and results *)

Inductive exn : Set :=
| ValueError
| TypeError
| IndexError
| OverflowError
| OSError.

Inductive result (A : Type) : Type :=
| Ok (a : A)
| Raise (e : exn).

Arguments Ok {A} a.
Arguments Raise {A} e.

Definition bind {A B : Type} (r : result A) (k : A -> result B) : result B :=
  match r with
  | Ok a => k a
  | Raise e => Raise e
  end.

Notation "x <- r ;; k" := (bind r (fun x => k))
  (at level 61, r at next level, right associativity).

(** [try: body except E: handler] for a handler that ignores the exception
    object. *)
Definition try_except {A : Type} (body : result A) (E : exn) (handler : result A)
  : result A :=
  match body with
  | Ok a => Ok a
  | Raise e => match e, E with
               | ValueError, ValueError | TypeError, TypeError
               | IndexError, IndexError | OverflowError, OverflowError
               | OSError, OSError => handler
               | _, _ => Raise e
               end
  end.

(** ** Python values *)

Inductive pyval : Set :=
| PyInt (z : Z)
| PyBool (b : bool)
| PyFloat (f : float)
| PyStr (s : string)
| PyNone
| PyOther (tag : nat).

(** [PyOther] stands for any object that is no [int], [float], [str] or
    [None] (a list, a [datetime], ...); nothing below looks inside one. *)

(** [isinstance(t, int)]: [bool] is a subclass of [int], [True == 1]. *)
Definition as_int (t : pyval) : option Z :=
  match t with
  | PyInt z => Some z
  | PyBool b => Some (Z.b2z b)
  | _ => None
  end.

Definition isinstance_float (t : pyval) : bool :=
  match t with PyFloat _ => true | _ => false end.

Definition isinstance_str (t : pyval) : bool :=
  match t with PyStr _ => true | _ => false end.

(** A Python [str] result. The text of [str(v)] is not modelled for a float
    (the shortest digits that read back) nor for an object of another type:
    it is kept as [StrOf v]. *)
Inductive pystr : Set :=
| Text (s : string)
| StrOf (v : pyval).

(** ** Characters and decimal digits *)

Definition is_digit (c : ascii) : bool :=
  ((48 <=? N_of_ascii c) && (N_of_ascii c <=? 57))%N.

Definition digit_val (c : ascii) : Z := Z.of_N (N_of_ascii c) - 48.

Definition chr_digit (d : Z) : ascii := ascii_of_N (Z.to_N (48 + d)).

Definition newline : ascii := ascii_of_N 10.

(** Value of a run of decimal digits, most significant first. *)
Fixpoint digits_value (acc : Z) (s : string) : Z :=
  match s with
  | EmptyString => acc
  | String c r => digits_value (10 * acc + digit_val c) r
  end.

Fixpoint all_digits (s : string) : bool :=
  match s with
  | EmptyString => true
  | String c r => is_digit c && all_digits r
  end.

(** [int(s)] on the all-digit slices that [strpSecs] passes to it. *)
Definition py_int_of_str (s : string) : result Z :=
  match s with
  | EmptyString => Raise ValueError
  | _ => if all_digits s then Ok (digits_value 0 s) else Raise ValueError
  end.

(** [n] in decimal, zero-padded to exactly [k] digits. *)
Fixpoint digits_n (k : nat) (n : Z) : string :=
  match k with
  | O => EmptyString
  | S k' => digits_n k' (n / 10) ++ String (chr_digit (n mod 10)) EmptyString
  end.

Fixpoint dec_fuel (fuel : nat) (n : Z) (acc : string) : string :=
  match fuel with
  | O => acc
  | S f =>
      let acc' := String (chr_digit (n mod 10)) acc in
      if n <? 10 then acc' else dec_fuel f (n / 10) acc'
  end.

(** [str(n)] for an integer [n >= 0]: decimal without padding. *)
Definition dec (n : Z) : string :=
  dec_fuel (S (Z.to_nat (Z.log2 n))) n EmptyString.

(** [s[-k:]]: the last [k] characters, the whole of [s] when it is shorter. *)
Definition last_chars (k : nat) (s : string) : string :=
  substring (String.length s - k) k s.

(** [s[a:b]] for [0 <= a <= b]. *)
Definition slice (a b : nat) (s : string) : string := substring a (b - a) s.

(** ** Floats *)

(** [float(z)] for an integer: round to nearest, ties to even; beyond the
    binary64 range the rounding gives an infinity. *)
Definition float_of_Z (z : Z) : float :=
  SF2Prim (SpecFloat.binary_normalize FloatOps.prec FloatOps.emax z 0 false).

Arguments float_of_Z : simpl never.

(** The conversion Python applies to an [int] operand of a float operation:
    [OverflowError: int too large to convert to float]. *)
Definition int_to_float (z : Z) : result float :=
  let f := float_of_Z z in
  if PrimFloat.is_infinity f then Raise OverflowError else Ok f.

Definition sign_Z (s : bool) (m : Z) : Z := if s then - m else m.

(** Truncation toward zero of a finite float, on its mantissa and exponent. *)
Definition trunc_SF (x : spec_float) : Z :=
  match x with
  | S754_finite s m e => sign_Z s (Z.shiftl (Z.pos m) e)
  | _ => 0
  end.

(** [int(x)] for a float. *)
Definition py_int_of_float (x : float) : result Z :=
  match Prim2SF x with
  | S754_nan => Raise ValueError
  | S754_infinity _ => Raise OverflowError
  | sf => Ok (trunc_SF sf)
  end.

(** Nearest integer to [num / den] ([den > 0], [num >= 0]), ties to even. *)
Definition round_half_even_frac (num den : Z) : Z :=
  let q := num / den in
  let r := num mod den in
  match 2 * r ?= den with
  | Lt => q
  | Gt => q + 1
  | Eq => if Z.even q then q else q + 1
  end.

(** Nearest integer to [c * x] for a finite float [x] and an integer [c > 0],
    ties to even, computed on the exact value of [x]. *)
Definition round_half_even_scaled (c : Z) (x : float) : Z :=
  match Prim2SF x with
  | S754_finite s m e =>
      sign_Z s (if 0 <=? e then c * Z.pos m * 2 ^ e
                else round_half_even_frac (c * Z.pos m) (2 ^ (- e)))
  | _ => 0
  end.

(** The float nearest to [num / den] for [num >= 0], [den > 0]: the quotient
    is cut to at least 59 bits with a sticky last bit, then rounded once. *)
Definition float_of_ratio (num den : Z) : float :=
  if num =? 0 then 0%float
  else
    let s := Z.log2 den + 60 in
    let q := (num * 2 ^ s) / den in
    let sticky := if (num * 2 ^ s) mod den =? 0 then 0 else 1 in
    SF2Prim (SpecFloat.binary_normalize FloatOps.prec FloatOps.emax
               (2 * q + sticky) (- s - 1) false).

(** [float(s)] on group 2 of the pattern of [strpSecs]: a point followed by
    digits. *)
Definition py_float_of_fraction (s : string) : result float :=
  match s with
  | String "."%char ds =>
      match ds with
      | EmptyString => Raise ValueError
      | _ => if all_digits ds
             then Ok (float_of_ratio (digits_value 0 ds)
                                     (10 ^ Z.of_nat (String.length ds)))
             else Raise ValueError
      end
  | _ => Raise ValueError
  end.

(** [f"{x:.3f}"] for a finite [x >= 0]: the exact value of [x] rounded to
    three decimals, ties to even. *)
Definition format_3f (x : float) : string :=
  let n := round_half_even_scaled 1000 x in
  dec (n / 1000) ++ "." ++ digits_n 3 (n mod 1000).

(** ** The two patterns of [strpSecs] *)

(** One position of a fixed-width pattern: [\d], a literal, or one of two
    characters. *)
Inductive atom : Set :=
| Digit
| Lit (c : ascii)
| Either (c1 c2 : ascii).

Definition atom_matches (a : atom) (c : ascii) : bool :=
  match a with
  | Digit => is_digit c
  | Lit c' => Ascii.eqb c c'
  | Either c1 c2 => Ascii.eqb c c1 || Ascii.eqb c c2
  end.

(** Match the atoms at the start of [s]: the matched text and what follows. *)
Fixpoint match_prefix (p : list atom) (s : string) : option (string * string) :=
  match p with
  | [] => Some (EmptyString, s)
  | a :: p' =>
      match s with
      | EmptyString => None
      | String c r =>
          if atom_matches a c
          then match match_prefix p' r with
               | Some (m, rest) => Some (String c m, rest)
               | None => None
               end
          else None
      end
  end.

(** [\d{4}-\d{2}-\d{2}T\d{2}:\d{2}:\d{2}] *)
Definition date_time_shape : list atom :=
  [Digit; Digit; Digit; Digit; Lit "-"; Digit; Digit; Lit "-"; Digit; Digit;
   Lit "T"; Digit; Digit; Lit ":"; Digit; Digit; Lit ":"; Digit; Digit].

(** [[+-][0-9]{4}] *)
Definition zone_shape : list atom :=
  [Either "+" "-"; Digit; Digit; Digit; Digit].

(** The longest run of digits at the start of [s], and the rest. *)
Fixpoint span_digits (s : string) : string * string :=
  match s with
  | EmptyString => (EmptyString, EmptyString)
  | String c r =>
      if is_digit c
      then let '(ds, rest) := span_digits r in (String c ds, rest)
      else (EmptyString, s)
  end.

Fixpoint no_newline (s : string) : bool :=
  match s with
  | EmptyString => true
  | String c r => negb (Ascii.eqb c newline) && no_newline r
  end.

(** [re.fullmatch] with the pattern of line 253: group 1 is the date-time
    shape, group 2 a point and one or more of [0-9], group 3 any run of
    characters other than a newline. Group 2 is greedy and takes every digit
    after the point; group 3 is what is left and must hold no newline (giving
    digits back to group 3 cannot remove a newline from it, so backtracking
    finds no other match). *)
Definition match_iso (s : string) : option (string * string * string) :=
  match match_prefix date_time_shape s with
  | Some (g1, String "."%char r) =>
      match span_digits r with
      | (EmptyString, _) => None
      | (ds, g3) =>
          if no_newline g3 then Some (g1, String "."%char ds, g3) else None
      end
  | _ => None
  end.

(** [re.fullmatch(r'[+-][0-9]{4}', zone) is not None] *)
Definition match_zone (zone : string) : bool :=
  match match_prefix zone_shape zone with
  | Some (_, EmptyString) => true
  | _ => false
  end.

(** ** The proleptic Gregorian calendar of [datetime] *)

Definition is_leap (y : Z) : bool :=
  (y mod 4 =? 0) && (negb (y mod 100 =? 0) || (y mod 400 =? 0)).

(** [_days_before_year]: days before January 1st of year [y]. *)
Definition days_before_year (y : Z) : Z :=
  let y1 := y - 1 in y1 * 365 + y1 / 4 - y1 / 100 + y1 / 400.

(** [_DAYS_BEFORE_MONTH], for a common year. *)
Definition days_before_month_common (m : Z) : Z :=
  nth (Z.to_nat m) [0; 0; 31; 59; 90; 120; 151; 181; 212; 243; 273; 304; 334] 0.

(** [_days_before_month]: days of the year before the first of month [m]. *)
Definition days_before_month (leap : bool) (m : Z) : Z :=
  days_before_month_common m + (if (2 <? m) && leap then 1 else 0).

(** [_ymd2ord]: the ordinal of a date, January 1st of year 1 being day 1. *)
Definition ymd2ord (y m d : Z) : Z :=
  days_before_year y + days_before_month (is_leap y) m + d.

(** [_DAYS_IN_MONTH], for a common year. *)
Definition days_in_month_common (m : Z) : Z :=
  nth (Z.to_nat m) [0; 31; 28; 31; 30; 31; 30; 31; 31; 30; 31; 30; 31] 0.

(** [_days_in_month] *)
Definition days_in_month (y m : Z) : Z :=
  if (m =? 2) && is_leap y then 29 else days_in_month_common m.

(** The month and day of the [n]-th day of a year ([n] from 0), as the second
    half of [_ord2ymd] finds them: an estimate of the month, corrected when
    it is one too large. *)
Definition month_day_of_yday (leap : bool) (n : Z) : Z * Z :=
  let month := Z.shiftr (n + 50) 5 in
  let preceding := days_before_month leap month in
  if n <? preceding
  then let month' := month - 1 in
       let preceding' :=
         preceding - (days_in_month_common month'
                      + (if (month' =? 2) && leap then 1 else 0)) in
       (month', n - preceding' + 1)
  else (month, n - preceding + 1).

(** [_ord2ymd]: the date of an ordinal. *)
Definition ord2ymd (ordinal : Z) : Z * Z * Z :=
  let n := ordinal - 1 in
  let n400 := n / 146097 in
  let n := n mod 146097 in
  let n100 := n / 36524 in
  let n := n mod 36524 in
  let n4 := n / 1461 in
  let n := n mod 1461 in
  let n1 := n / 365 in
  let n := n mod 365 in
  let year := n400 * 400 + 1 + n100 * 100 + n4 * 4 + n1 in
  if (n1 =? 4) || (n100 =? 4) then (year - 1, 12, 31)
  else
    let leapyear := (n1 =? 3) && (negb (n4 =? 24) || (n100 =? 3)) in
    let '(month, day) := month_day_of_yday leapyear n in
    (year, month, day).

(** Ordinal of 1970-01-01, and the ordinals of 0001-01-01 and 9999-12-31. *)
Definition EPOCH_ORD : Z := 719163.
Definition MIN_ORD : Z := 1.
Definition MAX_ORD : Z := 3652059.

(** ** [time.strptime] and [calendar.timegm] *)

Record struct_time : Set := mk_struct_time {
  tm_year : Z; tm_mon : Z; tm_mday : Z;
  tm_hour : Z; tm_min : Z; tm_sec : Z
}.

(** [time.strptime(s, '%Y-%m-%dT%H:%M:%S')] on a text of two-digit fields, as
    group 1 of [match_iso] is. The format's own pattern takes the month from
    01 to 12, the day from 01 to 31, the hour to 23, the minute to 59 and the
    second to 61; the date is then built with [datetime.date], which refuses
    year 0 and a day past the end of its month. Every failure is a
    [ValueError]. *)
Definition strptime_iso (s : string) : result struct_time :=
  match match_prefix date_time_shape s with
  | Some (_, EmptyString) =>
      let y := digits_value 0 (slice 0 4 s) in
      let mo := digits_value 0 (slice 5 7 s) in
      let d := digits_value 0 (slice 8 10 s) in
      let h := digits_value 0 (slice 11 13 s) in
      let mi := digits_value 0 (slice 14 16 s) in
      let sec := digits_value 0 (slice 17 19 s) in
      if (1 <=? mo) && (mo <=? 12) && (1 <=? d) && (d <=? 31)
         && (h <=? 23) && (mi <=? 59) && (sec <=? 61)
      then if (1 <=? y) && (d <=? days_in_month y mo)
           then Ok (mk_struct_time y mo d h mi sec)
           else Raise ValueError
      else Raise ValueError
  | _ => Raise ValueError
  end.

(** [calendar.timegm] *)
Definition timegm (t : struct_time) : Z :=
  let days := ymd2ord (tm_year t) (tm_mon t) 1 - EPOCH_ORD + tm_mday t - 1 in
  let hours := days * 24 + tm_hour t in
  let minutes := hours * 60 + tm_min t in
  minutes * 60 + tm_sec t.

(** ** [strpSecs] *)

(** [zone[0]]: indexing an empty string raises [IndexError]. *)
Definition str_index0 (s : string) : result ascii :=
  match s with
  | EmptyString => Raise IndexError
  | String c _ => Ok c
  end.

(** Lines 256 to 263: the seconds to add for the zone suffix. *)
Definition zone_offset (zone : string) : result Z :=
  let z := match_zone zone in
  c <- str_index0 zone ;;
  if Ascii.eqb c "Z" then Ok 0
  else if z then
    hh <- py_int_of_str (slice 1 3 zone) ;;
    mm <- py_int_of_str (slice 3 5 zone) ;;
    Ok ((if Ascii.eqb c "+" then -60 else 60) * (hh * 60 + mm))
  else Raise ValueError.

(** The [try] body of [strpSecs], lines 256 to 268. *)
Definition strpSecs_body (g1 g2 zone : string) : result float :=
  offset <- zone_offset zone ;;
  tm <- strptime_iso g1 ;;
  let secs := timegm tm in
  secs' <- (if (0 <? Z.of_nat (String.length g2))
            then f <- py_float_of_fraction g2 ;;
                 Ok (float_of_Z secs + f)%float
            else Ok (float_of_Z secs)) ;;
  Ok (secs' + float_of_Z offset)%float.

Definition strpSecs (s : string) : result float :=
  match match_iso s with
  | Some (g1, g2, zone) =>
      try_except (strpSecs_body g1 g2 zone) ValueError (Raise ValueError)
  | None => Raise ValueError
  end.

(** ** [anyToSecs], [millisToSecs], [secsToMillis] *)

Definition anyToSecs (t : pyval) (offset : float) : result float :=
  match as_int t with
  | Some z => x <- int_to_float z ;; Ok (x / 1000 + offset)%float
  | None =>
      match t with
      | PyFloat f => Ok f
      | PyStr s => strpSecs s
      | _ => Raise TypeError
      end
  end.

Definition millisToSecs (millis : Z) (time_delta : float) : result float :=
  x <- int_to_float millis ;;
  Ok (x / 1000 + time_delta)%float.

Definition secsToMillis (t : pyval) (time_delta : float) : result Z :=
  match t with
  | PyFloat f => py_int_of_float ((f - time_delta) * 1000)%float
  | _ => Raise ValueError
  end.

(** ** Time zones as pytz holds them *)

(** A pytz zone: the UTC offset (seconds east) in force before its first
    transition, and its transitions in ascending order, each a UTC instant
    with the offset in force from it. *)
Record tzinfo : Set := mk_tzinfo {
  tz_first_offset : Z;
  tz_transitions : list (Z * Z)
}.

(** The offset in force at UTC second [t]: that of the last transition at
    or before [t] (pytz's [fromutc] bisects its transition times). *)
Fixpoint offset_from (trs : list (Z * Z)) (cur : Z) (t : Z) : Z :=
  match trs with
  | [] => cur
  | (start, off) :: rest =>
      if start <=? t then offset_from rest off t else cur
  end.

Definition utcoffset (tz : tzinfo) (t : Z) : Z :=
  offset_from (tz_transitions tz) (tz_first_offset tz) t.

(** The zone the library configures, [timezone('US/Eastern')]. Its table is
    pytz's and not part of the repository: these are the 236 transitions of
    the tz database for that zone (1901 to 2037), with the local mean time
    of New York, rounded to the minute as pytz does, before them. The
    general statements below hold for any zone; this one is used where a
    statement is evaluated. *)
Definition US_Eastern : tzinfo :=
  mk_tzinfo (-17760)
   [(-2147483648, -18000); (-1633280400, -14400); (-1615140000, -18000);
    (-1601830800, -14400); (-1583690400, -18000); (-1570381200, -14400);
    (-1551636000, -18000); (-1536512400, -14400); (-1523210400, -18000);
    (-1504458000, -14400); (-1491760800, -18000); (-1473008400, -14400);
    (-1459706400, -18000); (-1441558800, -14400); (-1428256800, -18000);
    (-1410109200, -14400); (-1396807200, -18000); (-1378659600, -14400);
    (-1365357600, -18000); (-1347210000, -14400); (-1333908000, -18000);
    (-1315155600, -14400); (-1301853600, -18000); (-1283706000, -14400);
    (-1270404000, -18000); (-1252256400, -14400); (-1238954400, -18000);
    (-1220806800, -14400); (-1207504800, -18000); (-1189357200, -14400);
    (-1176055200, -18000); (-1157302800, -14400); (-1144605600, -18000);
    (-1125853200, -14400); (-1112551200, -18000); (-1094403600, -14400);
    (-1081101600, -18000); (-1062954000, -14400); (-1049652000, -18000);
    (-1031504400, -14400); (-1018202400, -18000); (-1000054800, -14400);
    (-986752800, -18000); (-968000400, -14400); (-955303200, -18000);
    (-936550800, -14400); (-923248800, -18000); (-905101200, -14400);
    (-891799200, -18000); (-880218000, -14400); (-769395600, -14400);
    (-765396000, -18000); (-747248400, -14400); (-733946400, -18000);
    (-715798800, -14400); (-702496800, -18000); (-684349200, -14400);
    (-671047200, -18000); (-652899600, -14400); (-639597600, -18000);
    (-620845200, -14400); (-608148000, -18000); (-589395600, -14400);
    (-576093600, -18000); (-557946000, -14400); (-544644000, -18000);
    (-526496400, -14400); (-513194400, -18000); (-495046800, -14400);
    (-481744800, -18000); (-463597200, -14400); (-447271200, -18000);
    (-431542800, -14400); (-415821600, -18000); (-400093200, -14400);
    (-384372000, -18000); (-368643600, -14400); (-352922400, -18000);
    (-337194000, -14400); (-321472800, -18000); (-305744400, -14400);
    (-289418400, -18000); (-273690000, -14400); (-257968800, -18000);
    (-242240400, -14400); (-226519200, -18000); (-210790800, -14400);
    (-195069600, -18000); (-179341200, -14400); (-163620000, -18000);
    (-147891600, -14400); (-131565600, -18000); (-116442000, -14400);
    (-100116000, -18000); (-84387600, -14400); (-68666400, -18000);
    (-52938000, -14400); (-37216800, -18000); (-21488400, -14400);
    (-5767200, -18000); (9961200, -14400); (25682400, -18000);
    (41410800, -14400); (57736800, -18000); (73465200, -14400);
    (89186400, -18000); (104914800, -14400); (120636000, -18000);
    (126687600, -14400); (152085600, -18000); (162370800, -14400);
    (183535200, -18000); (199263600, -14400); (215589600, -18000);
    (230713200, -14400); (247039200, -18000); (262767600, -14400);
    (278488800, -18000); (294217200, -14400); (309938400, -18000);
    (325666800, -14400); (341388000, -18000); (357116400, -14400);
    (372837600, -18000); (388566000, -14400); (404892000, -18000);
    (420015600, -14400); (436341600, -18000); (452070000, -14400);
    (467791200, -18000); (483519600, -14400); (499240800, -18000);
    (514969200, -14400); (530690400, -18000); (544604400, -14400);
    (562140000, -18000); (576054000, -14400); (594194400, -18000);
    (607503600, -14400); (625644000, -18000); (638953200, -14400);
    (657093600, -18000); (671007600, -14400); (688543200, -18000);
    (702457200, -14400); (719992800, -18000); (733906800, -14400);
    (752047200, -18000); (765356400, -14400); (783496800, -18000);
    (796806000, -14400); (814946400, -18000); (828860400, -14400);
    (846396000, -18000); (860310000, -14400); (877845600, -18000);
    (891759600, -14400); (909295200, -18000); (923209200, -14400);
    (941349600, -18000); (954658800, -14400); (972799200, -18000);
    (986108400, -14400); (1004248800, -18000); (1018162800, -14400);
    (1035698400, -18000); (1049612400, -14400); (1067148000, -18000);
    (1081062000, -14400); (1099202400, -18000); (1112511600, -14400);
    (1130652000, -18000); (1143961200, -14400); (1162101600, -18000);
    (1173596400, -14400); (1194156000, -18000); (1205046000, -14400);
    (1225605600, -18000); (1236495600, -14400); (1257055200, -18000);
    (1268550000, -14400); (1289109600, -18000); (1299999600, -14400);
    (1320559200, -18000); (1331449200, -14400); (1352008800, -18000);
    (1362898800, -14400); (1383458400, -18000); (1394348400, -14400);
    (1414908000, -18000); (1425798000, -14400); (1446357600, -18000);
    (1457852400, -14400); (1478412000, -18000); (1489302000, -14400);
    (1509861600, -18000); (1520751600, -14400); (1541311200, -18000);
    (1552201200, -14400); (1572760800, -18000); (1583650800, -14400);
    (1604210400, -18000); (1615705200, -14400); (1636264800, -18000);
    (1647154800, -14400); (1667714400, -18000); (1678604400, -14400);
    (1699164000, -18000); (1710054000, -14400); (1730613600, -18000);
    (1741503600, -14400); (1762063200, -18000); (1772953200, -14400);
    (1793512800, -18000); (1805007600, -14400); (1825567200, -18000);
    (1836457200, -14400); (1857016800, -18000); (1867906800, -14400);
    (1888466400, -18000); (1899356400, -14400); (1919916000, -18000);
    (1930806000, -14400); (1951365600, -18000); (1962860400, -14400);
    (1983420000, -18000); (1994310000, -14400); (2014869600, -18000);
    (2025759600, -14400); (2046319200, -18000); (2057209200, -14400);
    (2077768800, -18000); (2088658800, -14400); (2109218400, -18000);
    (2120108400, -14400); (2140668000, -18000)].

(** ** [datetime.fromtimestamp] and [strftime] *)

Record datetime : Set := mk_datetime {
  year : Z; month : Z; day : Z;
  hour : Z; minute : Z; second : Z; microsecond : Z
}.

(** Seconds and microseconds of a float timestamp, rounded half to even as
    [fromtimestamp] does: the fraction is scaled to microseconds in floating
    point, rounded, and a carry moved into the seconds. [NaN] is a
    [ValueError]; a value outside the 64-bit [time_t] an [OverflowError].
    That range is tested on the double, where the upper bound [2^63 - 1]
    rounds to [2^63]: the float [2^63] passes the test (and is then refused
    by [gmtime], see [fromtimestamp]). *)
Definition timeval_of_float (d : float) : result (Z * Z) :=
  match Prim2SF d with
  | S754_nan => Raise ValueError
  | S754_infinity _ => Raise OverflowError
  | sf =>
      let intpart := trunc_SF sf in
      let floatpart := (d - float_of_Z intpart)%float in
      let us := round_half_even_scaled 1 (floatpart * 1000000)%float in
      let '(sec, us) :=
        if 1000000 <=? us then (intpart + 1, us - 1000000)
        else if us <? 0 then (intpart - 1, us + 1000000)
        else (intpart, us) in
      if (- 2 ^ 63 <=? sec) && (sec <=? 2 ^ 63) then Ok (sec, us)
      else Raise OverflowError
  end.

(** The seconds for which the C library's [gmtime] has a year that fits its
    [int] field; outside them [fromtimestamp] raises [OSError]. *)
Definition gmtime_min : Z := -67768040609740800.
Definition gmtime_max : Z := 67768036191676799.

(** The calendar fields of the second [t] counted from 1970-01-01T00:00:00,
    when its date is within years 1 to 9999. *)
Definition civil_of_seconds (t us : Z) : option datetime :=
  let ordinal := EPOCH_ORD + t / 86400 in
  let rem := t mod 86400 in
  if (MIN_ORD <=? ordinal) && (ordinal <=? MAX_ORD)
  then let '(y, m, d) := ord2ymd ordinal in
       Some (mk_datetime y m d (rem / 3600) (rem mod 3600 / 60) (rem mod 60) us)
  else None.

(** [datetime.fromtimestamp(t, tz)] for a float [t] and a pytz zone: the UTC
    date-time is built first ([ValueError] when its year is out of range),
    then moved by the zone's offset ([OverflowError] when that leaves the
    range). *)
Definition fromtimestamp (tz : tzinfo) (t : float) : result datetime :=
  tv <- timeval_of_float t ;;
  let '(sec, us) := tv in
  if (gmtime_min <=? sec) && (sec <=? gmtime_max)
  then match civil_of_seconds sec us with
       | None => Raise ValueError
       | Some _ =>
           match civil_of_seconds (sec + utcoffset tz sec) us with
           | None => Raise OverflowError
           | Some dt => Ok dt
           end
       end
  else Raise OSError.

(** One directive of [strftime]. [%Y] is the year in decimal, unpadded as
    the C library of Linux prints it; [%y %m %d %H %M %S] are two digits.
    Directives the library's patterns do not use are outside this model and
    are copied through. *)
Definition strftime_directive (dt : datetime) (c : ascii) : string :=
  if Ascii.eqb c "Y" then dec (year dt)
  else if Ascii.eqb c "y" then digits_n 2 (year dt mod 100)
  else if Ascii.eqb c "m" then digits_n 2 (month dt)
  else if Ascii.eqb c "d" then digits_n 2 (day dt)
  else if Ascii.eqb c "H" then digits_n 2 (hour dt)
  else if Ascii.eqb c "M" then digits_n 2 (minute dt)
  else if Ascii.eqb c "S" then digits_n 2 (second dt)
  else if Ascii.eqb c "%" then "%"
  else String "%"%char (String c EmptyString).

Fixpoint strftime (dt : datetime) (fmt : string) : string :=
  match fmt with
  | EmptyString => EmptyString
  | String c rest =>
      if Ascii.eqb c "%"
      then match rest with
           | EmptyString => "%"
           | String d rest' => strftime_directive dt d ++ strftime dt rest'
           end
      else String c (strftime dt rest)
  end.

(** [str(t)] *)
Definition py_str (t : pyval) : pystr :=
  match t with
  | PyInt z => Text (if z <? 0 then "-" ++ dec (- z) else dec z)
  | PyBool b => Text (if b then "True" else "False")
  | PyFloat _ => StrOf t
  | PyStr s => Text s
  | PyNone => Text "None"
  | PyOther _ => StrOf t
  end.

(** ** [strfTime] *)

Section HomeZone.

(** [home_zone = timezone('US/Eastern')], line 18. *)
Variable home_zone : tzinfo.

(** Lines 237 to 241. *)
Definition format_datetime (dt : datetime) (fmt : string) (millis : bool)
  : pystr :=
  let s := strftime dt fmt in
  if millis
  then Text (s ++ last_chars 4
               (format_3f (float_of_Z (microsecond dt) / 1000000)%float))
  else Text s.

(** Lines 225 to 236: the date-time to format, or the string returned at
    once. In the [str] branch both [strpSecs] and [fromtimestamp] stand
    inside the inner [try], whose handler returns [t]. *)
Definition strfTime_datetime (t : pyval) : result (datetime + pystr) :=
  match t with
  | PyFloat f => dt <- fromtimestamp home_zone f ;; Ok (inl dt)
  | _ =>
      match as_int t with
      | Some z =>
          secs <- millisToSecs z 0 ;;
          dt <- fromtimestamp home_zone secs ;; Ok (inl dt)
      | None =>
          match t with
          | PyStr s =>
              try_except (secs <- strpSecs s ;;
                          dt <- fromtimestamp home_zone secs ;; Ok (inl dt))
                         ValueError (Ok (inr (Text s)))
          | _ => Ok (inr (py_str t))
          end
      end
  end.

(** The body of the outer [try], lines 225 to 241. *)
Definition strfTime_body (t : pyval) (fmt : string) (millis : bool)
  : result pystr :=
  r <- strfTime_datetime t ;;
  match r with
  | inl dt => Ok (format_datetime dt fmt millis)
  | inr returned => Ok returned
  end.

Definition strfTime (t : pyval) (fmt : string) (millis : bool)
  : result pystr :=
  try_except (strfTime_body t fmt millis) OSError (Ok (py_str t)).

End HomeZone.

(** The default pattern of [strfTime]. *)
Definition default_fmt : string := "%Y-%m-%dT%H:%M:%S".

(** ** [buckets] *)

Fixpoint insert_sorted (x : Z) (l : list Z) : list Z :=
  match l with
  | [] => [x]
  | y :: r => if x <=? y then x :: l else y :: insert_sorted x r
  end.

(** [lst.sort()] on a list of integers. *)
Fixpoint list_sort (l : list Z) : list Z :=
  match l with
  | [] => []
  | x :: r => insert_sorted x (list_sort r)
  end.

(** The [while] loop of lines 54 to 59; the index [i] is carried as the part
    of [lst] from [i] on. Returns the count and what is left. *)
Fixpoint count_below (nxt : Z) (rest : list Z) (cnt : Z) : Z * list Z :=
  match rest with
  | [] => (cnt, [])
  | v :: rest' =>
      if v <? nxt then count_below nxt rest' (cnt + 1) else (cnt, rest)
  end.

(** The [for] loop of lines 53 to 62: the pairs so far and the last [low]. *)
Fixpoint buckets_loop (lows : list Z) (rest : list Z) (low : Z)
                      (result : list (Z * Z)) : list (Z * Z) * Z :=
  match lows with
  | [] => (result, low)
  | nxt :: lows' =>
      let '(cnt, rest') := count_below nxt rest 0 in
      buckets_loop lows' rest' nxt (result ++ [(low, cnt)])
  end.

Definition buckets (lst : list Z) (lows : list Z) : list (Z * Z) :=
  let lst := list_sort lst in
  let low := match lst with v :: _ => v | [] => 0 end in
  let '(result, low) := buckets_loop lows lst low [] in
  (result ++ [(low, Z.of_nat (List.length lst) - 1)])%list.

(** ** Reference definitions for the statements below *)

(** [math.isfinite] *)
Definition py_isfinite (x : float) : bool :=
  match Prim2SF x with
  | S754_zero _ | S754_finite _ _ _ => true
  | _ => false
  end.

(** The exact value of a finite float as a fraction with a positive
    denominator. *)
Definition exact_fraction (x : float) : Z * Z :=
  match Prim2SF x with
  | S754_finite s m e =>
      if 0 <=? e then (sign_Z s (Z.pos m * 2 ^ e), 1)
      else (sign_Z s (Z.pos m), 2 ^ (- e))
  | _ => (0, 1)
  end.

(** Rounding toward zero, stated on the exact value: the quotient that
    [Z.quot] truncates. *)
Definition round_toward_zero (x : float) : Z :=
  let '(num, den) := exact_fraction x in Z.quot num den.

(** The grammar the specification gives for ISO text: the date-time shape, an
    optional fraction, then [Z] or a sign and four digits. *)
Definition spec_grammar (s : string) : bool :=
  match match_prefix date_time_shape s with
  | Some (_, rest) =>
      let zone :=
        match rest with
        | String "."%char r =>
            match span_digits r with
            | (EmptyString, _) => rest
            | (_, after) => after
            end
        | _ => rest
        end in
      String.eqb zone "Z" || match_zone zone
  | None => false
  end.

(** The text has a fraction after its date-time part: a point and at least
    one digit. *)
Definition has_fraction (s : string) : bool :=
  match match_prefix date_time_shape s with
  | Some (_, String "."%char r) =>
      match span_digits r with
      | (EmptyString, _) => false
      | _ => true
      end
  | _ => false
  end.

(** The leading date-time part of a text that has one. *)
Definition date_time_part (s : string) : string :=
  match match_prefix date_time_shape s with
  | Some (g1, _) => g1
  | None => EmptyString
  end.

(** What follows the date-time part and the fraction, when there is one, of
    a text that begins with the date-time part. *)
Definition zone_part (s : string) : string :=
  match match_prefix date_time_shape s with
  | Some (_, rest) =>
      match rest with
      | String "."%char r =>
          match span_digits r with
          | (EmptyString, _) => rest
          | (_, after) => after
          end
      | _ => rest
      end
  | None => EmptyString
  end.

(** The text holds no point. *)
Fixpoint no_dot (s : string) : bool :=
  match s with
  | EmptyString => true
  | String c r => negb (Ascii.eqb c "."%char) && no_dot r
  end.

(** The fields of a date-time part name a date of the calendar and a time of
    day: year from 1, month 1 to 12, a day of that month, hour to 23, minute
    to 59, second to 61. *)
Definition valid_date_time (g1 : string) : bool :=
  let y := digits_value 0 (slice 0 4 g1) in
  let mo := digits_value 0 (slice 5 7 g1) in
  let d := digits_value 0 (slice 8 10 g1) in
  let h := digits_value 0 (slice 11 13 g1) in
  let mi := digits_value 0 (slice 14 16 g1) in
  let sec := digits_value 0 (slice 17 19 g1) in
  (1 <=? y) && (1 <=? mo) && (mo <=? 12) && (1 <=? d)
  && (d <=? days_in_month y mo) && (h <=? 23) && (mi <=? 59) && (sec <=? 61).

Definition starts_with (c : ascii) (s : string) : bool :=
  match s with
  | String c' _ => Ascii.eqb c' c
  | EmptyString => false
  end.

(** What [_ord2ymd] asserts of the month and day it finds for day [n] of a
    year: a month from 1 to 12, a day of that month, and the day of the year
    they add up to. *)
Definition month_day_ok (leap : bool) (n : Z) : bool :=
  let '(m, d) := month_day_of_yday leap n in
  (1 <=? m) && (m <=? 12) && (1 <=? d)
  && (d <=? (if (m =? 2) && leap then 29 else days_in_month_common m))
  && (days_before_month leap m + d =? n + 1).

(** The text [YYYY-MM-DDTHH:MM:SS] of a date-time, every field zero-padded. *)
Definition iso_text (dt : datetime) : string :=
  digits_n 4 (year dt) ++ "-" ++ digits_n 2 (month dt) ++ "-"
  ++ digits_n 2 (day dt) ++ "T" ++ digits_n 2 (hour dt) ++ ":"
  ++ digits_n 2 (minute dt) ++ ":" ++ digits_n 2 (second dt).

(** Minutes written in a zone suffix of sign and [HHMM]. *)
Definition zone_minutes (zone : string) : Z :=
  digits_value 0 (slice 1 3 zone) * 60 + digits_value 0 (slice 3 5 zone).

(** The milliseconds the specification describes: the microseconds as six
    digits, cut after the third. *)
Definition spec_truncated_millis (us : Z) : string :=
  substring 0 3 (digits_n 6 us).

(** The instant of a numeric argument of [strfTime]: a float as it is, an
    integer through [millisToSecs]. *)
Definition numeric_seconds (t : pyval) : result float :=
  match t with
  | PyFloat f => Ok f
  | _ => match as_int t with
         | Some z => millisToSecs z 0
         | None => Raise TypeError
         end
  end.

(** ** [fromTimeStamp] and [verbose_1] *)

(** [fromTimeStamp], line 125, with the zone the library configures given as
    an argument. *)
Definition fromTimeStamp (home_zone : tzinfo) (t : float) : result datetime :=
  fromtimestamp home_zone t.

(** The [int] branch of [verbose_1], line 289. *)
Definition decrement_level (verbose : Z) : Z :=
  if 0 <? verbose then verbose - 1 else 0.

(** [verbose_1]: the [bool] test comes first, so [True] gives 1. *)
Definition verbose_1 (verbose : pyval) : result Z :=
  match verbose with
  | PyBool b => Ok (if b then 1 else 0)
  | PyInt z => Ok (decrement_level z)
  | _ => Raise ValueError
  end.

(** The test [verbose > 0] of [printIf], line 203, on a level. *)
Definition prints (verbose : Z) : bool := 0 <? verbose.

(** The level that reaches the [k]-th layer below when every layer hands
    [verbose_1] of its own level down. *)
Fixpoint through_layers (k : nat) (verbose : Z) : Z :=
  match k with
  | O => verbose
  | S k' => through_layers k' (decrement_level verbose)
  end.

(** ** Reference definitions for [buckets] *)

(** Number of the values of [l] that satisfy [f]. *)
Definition count_if (f : Z -> bool) (l : list Z) : Z :=
  Z.of_nat (List.length (filter f l)).

(** [floor <= v], no floor being below every value. *)
Definition at_least (floor : option Z) (v : Z) : bool :=
  match floor with
  | None => true
  | Some m => m <=? v
  end.

Definition raise_floor (floor : option Z) (b : Z) : Z :=
  match floor with
  | None => b
  | Some m => Z.max m b
  end.

(** The histogram the breakpoints describe: for each breakpoint the number
    of values below it that are at or above every earlier breakpoint. *)
Fixpoint histogram (floor : option Z) (lows : list Z) (lst : list Z) : list Z :=
  match lows with
  | [] => []
  | b :: lows' =>
      count_if (fun v => at_least floor v && (v <? b)) lst
      :: histogram (Some (raise_floor floor b)) lows' lst
  end.


(** [v] is below one of the breakpoints. *)
Definition below_some (lows : list Z) (v : Z) : bool :=
  existsb (fun b => v <? b) lows.

Definition total (counts : list Z) : Z := fold_right Z.add 0 counts.

(** ** [credentials] *)

(** A value read by [json.loads]; [JNull] is Python's [None]. A JSON object
    is the list of the items of the [dict] it loads to, in insertion
    order. *)
#[local] Unset Elimination Schemes.
Inductive json : Set :=
| JNull
| JBool (b : bool)
| JInt (n : Z)
| JFloat (f : float)
| JStr (s : string)
| JList (l : list json)
| JDict (items : list (string * json)).
#[local] Set Elimination Schemes.

(** [d.get(k, None)] *)
Fixpoint dict_get (k : string) (items : list (string * json)) : json :=
  match items with
  | [] => JNull
  | (k', v) :: rest => if String.eqb k' k then v else dict_get k rest
  end.

(** [d[k] = v]: a key already present keeps its place. *)
Fixpoint dict_set (k : string) (v : json) (items : list (string * json))
  : list (string * json) :=
  match items with
  | [] => [(k, v)]
  | (k', v') :: rest =>
      if String.eqb k' k then (k', v) :: rest
      else (k', v') :: dict_set k v rest
  end.

(** The exceptions [credentials] can end with. *)
Inductive cred_exn : Set :=
| FileNotFoundError
| JSONDecodeError
| AttributeError
| KeyError
| EOFError.

Inductive outcome (A : Type) : Type :=
| Returned (a : A)
| Raised (e : cred_exn).

Arguments Returned {A} a.
Arguments Raised {A} e.

(** [~/.credentials.json]: absent, not JSON, or holding a value. *)
Inductive cred_file_state : Set :=
| NoFile
| NotJson
| Holds (j : json).

(** What [credentials] reads and writes: the file, and the lines still to
    come on standard input. What it prints is not modelled. *)
Record world : Set := mk_world {
  cred_file : cred_file_state;
  stdin : list string
}.

(** The answer in a line, as lines 90-91 and 108-111 read it: upper-cased,
    its first character [Y] or [N]. *)
Definition yes_no (line : string) : option bool :=
  match line with
  | EmptyString => None
  | String c _ =>
      if Ascii.eqb c "Y" || Ascii.eqb c "y" then Some true
      else if Ascii.eqb c "N" || Ascii.eqb c "n" then Some false
      else None
  end.

(** The loop of lines 89 to 92: ask until a line answers; [input()] at the
    end of the input raises [EOFError] ([None] here). Returns the lines left. *)
Fixpoint ask_create (lines : list string) : option bool * list string :=
  match lines with
  | [] => (None, [])
  | line :: rest =>
      match yes_no line with
      | Some b => (Some b, rest)
      | None => ask_create rest
      end
  end.

(** The loop of lines 103 to 115, up to the answer: the username is asked
    once, when none was given; the password and the answer are asked in
    every round. *)
Fixpoint ask_entry (username : option string) (lines : list string)
  : option (string * string * bool) * list string :=
  match username with
  | Some u =>
      match lines with
      | password :: yn :: rest =>
          match yes_no yn with
          | Some b => (Some (u, password, b), rest)
          | None => ask_entry (Some u) rest
          end
      | _ => (None, [])
      end
  | None =>
      match lines with
      | u :: password :: yn :: rest =>
          match yes_no yn with
          | Some b => (Some (u, password, b), rest)
          | None => ask_entry (Some u) rest
          end
      | _ => (None, [])
      end
  end.

(** Lines 81 to 97: the credentials read, or created on request. *)
Definition load_creds (interactive : bool) (w : world) : outcome json * world :=
  match cred_file w with
  | Holds j => (Returned j, w)
  | NotJson => (Raised JSONDecodeError, w)
  | NoFile =>
      if negb interactive then (Raised FileNotFoundError, w)
      else
        match ask_create (stdin w) with
        | (None, rest) => (Raised EOFError, mk_world NoFile rest)
        | (Some yes, rest) =>
            (Returned (JDict []),
             mk_world (if yes then Holds (JDict []) else NoFile) rest)
        end
  end.

(** Lines 98 to 115: the entry of [system], asked for when there is none. *)
Definition find_entry (system : string) (username : option string)
           (interactive : bool) (items : list (string * json)) (w : world)
  : outcome (json * option string) * world :=
  match dict_get system items with
  | JNull =>
      if negb interactive then (Raised KeyError, w)
      else
        match ask_entry username (stdin w) with
        | (None, rest) => (Raised EOFError, mk_world (cred_file w) rest)
        | (Some (u, password, yes), rest) =>
            let entry := JDict [(u, JStr password)] in
            let creds := dict_set system entry items in
            (Returned (entry, Some u),
             mk_world (if yes then Holds (JDict creds) else cred_file w) rest)
        end
  | entry => (Returned (entry, username), w)
  end.

(** Lines 116 to 120: [popitem] gives the last item of the entry. *)
Definition pick_user (entry : json) (username : option string)
  : outcome (string * json) :=
  match entry with
  | JDict (item :: items) =>
      match username with
      | None => Returned (last items item)
      | Some u => Returned (u, dict_get u (item :: items))
      end
  | _ => Raised KeyError
  end.

(** [credentials]; [creds.get] on a value that is no [dict] raises
    [AttributeError]. *)
Definition credentials (system : string) (username : option string)
           (interactive : bool) (w : world)
  : outcome (string * json) * world :=
  match load_creds interactive w with
  | (Raised e, w1) => (Raised e, w1)
  | (Returned (JDict items), w1) =>
      match find_entry system username interactive items w1 with
      | (Raised e, w2) => (Raised e, w2)
      | (Returned (entry, username'), w2) => (pick_user entry username', w2)
      end
  | (Returned _, w1) => (Raised AttributeError, w1)
  end.

(** * Properties *)

Set Warnings "-inexact-float".

(** ** Sanity checks on the runtime model *)

Example float_of_Z_exact : float_of_Z 1700000000000 = 1700000000000%float.
Proof. reflexivity. Qed.

Example float_of_fraction_half : py_float_of_fraction ".5" = Ok 0.5%float.
Proof. reflexivity. Qed.

Example format_3f_rounds : format_3f 0.1236 = "0.124".
Proof. reflexivity. Qed.

Example strpSecs_spec_example :
  strpSecs "2023-11-14T22:13:20.5Z" = Ok 1700000000.5%float.
Proof. reflexivity. Qed.

Example anyToSecs_millis_example :
  anyToSecs (PyInt 1700000000000) 0 = Ok 1700000000%float.
Proof. reflexivity. Qed.

Example strfTime_passthrough_example :
  strfTime US_Eastern (PyStr "garbage-string") default_fmt false
  = Ok (Text "garbage-string").
Proof. reflexivity. Qed.

(** ** [anyToSecs] *)

(** C8 (as stated it fails). An integer too large for a float is not
    converted but raises [OverflowError]. *)
Lemma anyToSecs_huge_int_raises :
  anyToSecs (PyInt (2 ^ 1024)) 0 = Raise OverflowError.
Proof. reflexivity. Qed.

(** C8 (amended). [anyToSecs] goes by the type of its argument: an instance
    of [int] (a [bool] included) gives [t/1000.0 + offset], raising
    [OverflowError] when the integer does not convert to a float; a float is
    returned as it is and a string is handed to [strpSecs], the offset unused
    in both; anything else raises [TypeError]. *)
Theorem anyToSecs_by_type (t : pyval) (offset : float) :
  (forall z, as_int t = Some z ->
     anyToSecs t offset
     = (x <- int_to_float z ;; Ok (x / 1000 + offset)%float))
  /\ (forall f, t = PyFloat f -> anyToSecs t offset = Ok f)
  /\ (forall s, t = PyStr s -> anyToSecs t offset = strpSecs s)
  /\ (as_int t = None -> isinstance_float t = false -> isinstance_str t = false ->
      anyToSecs t offset = Raise TypeError).
Proof.
  repeat split.
  - intros z Hz. unfold anyToSecs. now rewrite Hz.
  - intros f ->. reflexivity.
  - intros s ->. reflexivity.
  - destruct t; simpl; intros Hi Hf Hs; try discriminate; reflexivity.
Qed.

Lemma anyToSecs_by_type_witness :
  anyToSecs (PyInt 1700000000000) 0.25 = Ok 1700000000.25%float
  /\ anyToSecs (PyFloat 1700000000.5) 7 = Ok 1700000000.5%float
  /\ anyToSecs (PyOther 0) 0 = Raise TypeError.
Proof.
  destruct (anyToSecs_by_type (PyInt 1700000000000) 0.25) as [Hi _].
  destruct (anyToSecs_by_type (PyFloat 1700000000.5) 7) as [_ [Hf _]].
  destruct (anyToSecs_by_type (PyOther 0) 0) as [_ [_ [_ Ho]]].
  split; [| split].
  - exact (Hi _ eq_refl).
  - exact (Hf _ eq_refl).
  - exact (Ho eq_refl eq_refl eq_refl).
Defined.

(** C9. A [bool] passes [isinstance(t, int)]: [anyToSecs] does not raise
    [TypeError] on it but returns [(1 if b else 0)/1000.0 + offset]. *)
Theorem anyToSecs_bool_is_millis (b : bool) (offset : float) :
  anyToSecs (PyBool b) offset
  = Ok ((if b then 1 else 0) / 1000 + offset)%float
  /\ anyToSecs (PyBool b) offset <> Raise TypeError.
Proof.
  assert (H : anyToSecs (PyBool b) offset
              = Ok ((if b then 1 else 0) / 1000 + offset)%float)
    by (destruct b; reflexivity).
  split; [exact H | rewrite H; discriminate].
Qed.

(** ** [secsToMillis] *)

(** C5 (as stated it fails). An integer argument raises [ValueError], the
    exception [strpSecs] raises for text it cannot parse, and not the
    [TypeError] that [anyToSecs] raises for an unsupported type. *)
Lemma secsToMillis_int_raises_ValueError :
  secsToMillis (PyInt 1700000000) 0 = Raise ValueError
  /\ strpSecs "not-a-date" = Raise ValueError
  /\ anyToSecs PyNone 0 = Raise TypeError.
Proof. repeat split. Qed.

Lemma strpSecs_no_match (s : string) :
  match_iso s = None -> strpSecs s = Raise ValueError.
Proof. unfold strpSecs. now intros ->. Qed.

(** C5 (amended). For every argument that is not a float, integers included,
    [secsToMillis] raises [ValueError]: the exception of [strpSecs] on text
    outside its pattern, not the [TypeError] of [anyToSecs]. *)
Theorem secsToMillis_non_float (t : pyval) (delta : float) :
  isinstance_float t = false ->
  secsToMillis t delta = Raise ValueError
  /\ (forall s, match_iso s = None -> strpSecs s = Raise ValueError)
  /\ (forall v off, as_int v = None -> isinstance_float v = false ->
        isinstance_str v = false -> anyToSecs v off = Raise TypeError).
Proof.
  intros Hf. split; [| split].
  - destruct t; simpl in *; try reflexivity. discriminate.
  - exact strpSecs_no_match.
  - intros v off Hi Hfl Hs.
    destruct v; simpl in *; try discriminate; reflexivity.
Qed.

Lemma secsToMillis_non_float_witness :
  secsToMillis (PyInt 5) 0 = Raise ValueError
  /\ (forall s, match_iso s = None -> strpSecs s = Raise ValueError)
  /\ (forall v off, as_int v = None -> isinstance_float v = false ->
        isinstance_str v = false -> anyToSecs v off = Raise TypeError).
Proof. exact (secsToMillis_non_float (PyInt 5) 0 eq_refl). Defined.

Lemma sign_Z_quot (s : bool) (a b : Z) :
  Z.quot (sign_Z s a) b = sign_Z s (Z.quot a b).
Proof.
  destruct s; simpl; [| reflexivity].
  destruct (Z.eq_dec b 0) as [-> | Hb].
  - now destruct a.
  - now apply Z.quot_opp_l.
Qed.

(** The truncation done on mantissa and exponent is the quotient, rounded
    toward zero, of the exact value. *)
Lemma trunc_SF_round_toward_zero (x : float) :
  py_isfinite x = true -> trunc_SF (Prim2SF x) = round_toward_zero x.
Proof.
  unfold py_isfinite, round_toward_zero, exact_fraction.
  destruct (Prim2SF x) as [sz | si | | s m e]; try discriminate; intros _.
  - reflexivity.
  - simpl trunc_SF. destruct (0 <=? e) eqn:He.
    + apply Z.leb_le in He.
      rewrite Z.quot_1_r, Z.shiftl_mul_pow2 by assumption. reflexivity.
    + apply Z.leb_gt in He.
      rewrite sign_Z_quot. f_equal.
      rewrite Z.shiftl_div_pow2 by lia.
      symmetry. apply Z.quot_div_nonneg; [lia |].
      apply Z.pow_pos_nonneg; lia.
Qed.

(** C6 (as stated it fails). [NaN] is a float; the product is [NaN] and
    [int()] raises instead of returning an integer. *)
Lemma secsToMillis_nan_raises :
  secsToMillis (PyFloat nan) 0 = Raise ValueError.
Proof. reflexivity. Qed.

(** C6 (amended). Whenever [(t - delta) * 1000.0] is finite, [secsToMillis]
    returns it rounded toward zero (truncated, not rounded to nearest);
    [secsToMillis(1700000000.999)] is [1700000000999]; and when the product
    is [NaN] or infinite the call raises [ValueError] or [OverflowError]. *)
Theorem secsToMillis_truncates (t delta : float) :
  let p := ((t - delta) * 1000)%float in
  (py_isfinite p = true ->
     secsToMillis (PyFloat t) delta = Ok (round_toward_zero p))
  /\ (py_isfinite p = false ->
        secsToMillis (PyFloat t) delta = Raise ValueError
        \/ secsToMillis (PyFloat t) delta = Raise OverflowError)
  /\ secsToMillis (PyFloat 1700000000.999) 0 = Ok 1700000000999.
Proof.
  intros p. split; [| split].
  - intros Hfin. unfold secsToMillis. fold p.
    rewrite <- (trunc_SF_round_toward_zero p Hfin).
    unfold py_int_of_float. unfold py_isfinite in Hfin.
    destruct (Prim2SF p); try discriminate; reflexivity.
  - unfold secsToMillis, py_isfinite, py_int_of_float. fold p.
    destruct (Prim2SF p); try discriminate; auto.
  - reflexivity.
Qed.

Lemma secsToMillis_truncates_witness :
  secsToMillis (PyFloat 0.9996) 0 = Ok 999
  /\ secsToMillis (PyFloat (-0.9996)) 0 = Ok (-999)
  /\ secsToMillis (PyFloat infinity) 0 = Raise OverflowError.
Proof.
  destruct (secsToMillis_truncates 0.9996 0) as [H1 _].
  destruct (secsToMillis_truncates (-0.9996) 0) as [H2 _].
  destruct (secsToMillis_truncates infinity 0) as [_ [H3 _]].
  split; [| split].
  - exact (H1 eq_refl).
  - exact (H2 eq_refl).
  - destruct (H3 eq_refl) as [H | H]; [discriminate H | exact H].
Defined.

(** ** [buckets] *)

Lemma insert_sorted_length (x : Z) (l : list Z) :
  List.length (insert_sorted x l) = S (List.length l).
Proof.
  induction l as [| y r IH]; simpl; [reflexivity |].
  destruct (x <=? y); simpl; [reflexivity | now rewrite IH].
Qed.

Lemma list_sort_length (l : list Z) :
  List.length (list_sort l) = List.length l.
Proof.
  induction l as [| x r IH]; simpl; [reflexivity |].
  now rewrite insert_sorted_length, IH.
Qed.

(** Each breakpoint adds one pair to the result. *)
Lemma buckets_loop_length (lows rest : list Z) (low : Z) (acc : list (Z * Z)) :
  List.length (fst (buckets_loop lows rest low acc))
  = (List.length acc + List.length lows)%nat.
Proof.
  revert rest low acc.
  induction lows as [| nxt lows' IH]; intros rest low acc; simpl.
  - now rewrite Nat.add_0_r.
  - destruct (count_below nxt rest 0) as [cnt rest'].
    rewrite IH, length_app. simpl. lia.
Qed.

Example buckets_example :
  buckets [5; 1; 3; 9; 7] [2; 6] = [(1, 1); (2, 2); (6, 4)].
Proof. reflexivity. Qed.

(** No value is at or above the top breakpoint, yet the last count is 2. *)
Example buckets_last_count_not_a_tally :
  buckets [1; 2; 3] [10] = [(1, 3); (10, 2)].
Proof. reflexivity. Qed.

(** C10. Whatever the values and the breakpoints, [buckets] ends with a pair
    whose count is [len(lst) - 1]; it follows one pair per breakpoint. The
    count does not depend on the values at or above the top breakpoint. *)
Theorem buckets_last_count (lst lows : list Z) :
  exists front low,
    buckets lst lows = (front ++ [(low, Z.of_nat (List.length lst) - 1)])%list
    /\ List.length front = List.length lows
    /\ snd (last (buckets lst lows) (0, 0)) = Z.of_nat (List.length lst) - 1.
Proof.
  unfold buckets.
  pose proof (buckets_loop_length lows (list_sort lst)
                (match list_sort lst with v :: _ => v | [] => 0 end) []) as Hlen.
  destruct (buckets_loop lows (list_sort lst)
              (match list_sort lst with v :: _ => v | [] => 0 end) [])
    as [front low].
  simpl in Hlen. rewrite list_sort_length.
  exists front, low. repeat split; [exact Hlen |].
  now rewrite last_last.
Qed.

(** ** [strfTime] raising *)

(** C3 (the code departs from it). A string with a fraction and no zone is
    one [strpSecs] cannot parse, but it fails there with [IndexError] on
    [zone[0]]; no handler of [strpSecs] or [strfTime] catches it, so
    [strfTime] raises instead of returning the string. *)
Theorem strfTime_raises_IndexError (tz : tzinfo) (fmt : string) (millis : bool) :
  strpSecs "2023-11-14T22:13:20.5" = Raise IndexError
  /\ strfTime tz (PyStr "2023-11-14T22:13:20.5") fmt millis = Raise IndexError.
Proof. split; reflexivity. Qed.

(** [fromtimestamp] failures other than [OSError] are not caught either. *)
Lemma strfTime_raises_on_nan (tz : tzinfo) (fmt : string) (millis : bool) :
  strfTime tz (PyFloat nan) fmt millis = Raise ValueError.
Proof. reflexivity. Qed.

Lemma strfTime_raises_on_year_10000 (fmt : string) (millis : bool) :
  strfTime US_Eastern (PyFloat 253402300800) fmt millis = Raise ValueError.
Proof. reflexivity. Qed.

(** In the [str] branch [fromtimestamp] stands inside the inner [try]: its
    [ValueError] (here year 10000, reached through the zone suffix) is
    caught and the string returned. *)
Example strfTime_string_out_of_range :
  strfTime US_Eastern (PyStr "9999-12-31T23:59:59.5-9999") default_fmt false
  = Ok (Text "9999-12-31T23:59:59.5-9999").
Proof. reflexivity. Qed.

(** Only the [OSError] of an instant beyond the C library's [gmtime] turns
    into [str(t)]. *)
Lemma strfTime_degrades_on_OSError (fmt : string) (millis : bool) :
  strfTime US_Eastern (PyFloat 1e18) fmt millis = Ok (StrOf (PyFloat 1e18)).
Proof. reflexivity. Qed.

(** The float [2^63] passes the range test of [time_t] and is refused by
    [gmtime]: [str(t)] again. *)
Example strfTime_degrades_at_time_t_bound (fmt : string) (millis : bool) :
  strfTime US_Eastern (PyFloat 9223372036854775808) fmt millis
  = Ok (StrOf (PyFloat 9223372036854775808)).
Proof. reflexivity. Qed.

(** ** Matching *)

Lemma match_prefix_sound (p : list atom) (s m r : string) :
  match_prefix p s = Some (m, r) ->
  s = (m ++ r)%string /\ match_prefix p m = Some (m, EmptyString).
Proof.
  revert s m r.
  induction p as [| a p IH]; intros s m r H; simpl in *.
  - inversion H; subst. split; reflexivity.
  - destruct s as [| c s']; [discriminate |].
    destruct (atom_matches a c) eqn:Ha; [| discriminate].
    destruct (match_prefix p s') as [[m' r'] |] eqn:Hm; [| discriminate].
    inversion H; subst. destruct (IH _ _ _ Hm) as [-> Hm'].
    split; [reflexivity |]. simpl. now rewrite Ha, Hm'.
Qed.

Lemma match_prefix_complete (p : list atom) (m r : string) :
  match_prefix p m = Some (m, EmptyString) ->
  match_prefix p (m ++ r) = Some (m, r).
Proof.
  revert m.
  induction p as [| a p IH]; intros m H; simpl in *.
  - inversion H; subst. reflexivity.
  - destruct m as [| c m']; [discriminate |]. simpl.
    destruct (atom_matches a c); [| discriminate].
    destruct (match_prefix p m') as [[m1 r1] |] eqn:Hm; [| discriminate].
    inversion H; subst. now rewrite (IH _ Hm).
Qed.

Lemma span_digits_sound (s ds r : string) :
  span_digits s = (ds, r) ->
  s = (ds ++ r)%string /\ all_digits ds = true
  /\ match r with String c _ => is_digit c = false | EmptyString => True end.
Proof.
  revert ds r.
  induction s as [| c s IH]; intros ds r H; simpl in H.
  - inversion H; subst. repeat split.
  - destruct (is_digit c) eqn:Hc.
    + destruct (span_digits s) as [ds' r'].
      inversion H; subst. destruct (IH _ _ eq_refl) as [-> [Hd Hr]].
      repeat split; [| exact Hr]. simpl. now rewrite Hc, Hd.
    + inversion H; subst. repeat split. exact Hc.
Qed.

Lemma string_app_length (a b : string) :
  String.length (a ++ b) = (String.length a + String.length b)%nat.
Proof. induction a as [| x a IH]; simpl; [reflexivity | now rewrite IH]. Qed.

(** What a match of the pattern of [strpSecs] says of the text. *)
Lemma match_iso_inv (s g1 g2 zone : string) :
  match_iso s = Some (g1, g2, zone) ->
  exists ds,
    g2 = String "."%char ds /\ ds <> EmptyString /\ all_digits ds = true
    /\ s = (g1 ++ g2 ++ zone)%string
    /\ match_prefix date_time_shape s = Some (g1, (g2 ++ zone)%string)
    /\ span_digits (ds ++ zone) = (ds, zone)
    /\ no_newline zone = true.
Proof.
  unfold match_iso. intros H.
  destruct (match_prefix date_time_shape s) as [[m r] |] eqn:Hm; [| discriminate].
  destruct r as [| c r]; [discriminate |].
  destruct (Ascii.eqb_spec c "."%char) as [-> | Hne].
  2:{ destruct c as [[] [] [] [] [] [] [] []]; try discriminate.
      now contradiction Hne. }
  destruct (span_digits r) as [ds g3] eqn:Hs.
  destruct (span_digits_sound _ _ _ Hs) as [-> [Hd _]].
  destruct ds as [| d ds]; [discriminate |].
  destruct (no_newline g3) eqn:Hn; [| discriminate].
  inversion H; subst.
  exists (String d ds). repeat split; try assumption; try discriminate.
  apply (match_prefix_sound _ _ _ _ Hm).
Qed.

Lemma match_zone_inv (zone : string) :
  match_zone zone = true ->
  exists c d1 d2 d3 d4,
    zone = String c (String d1 (String d2 (String d3 (String d4 EmptyString))))
    /\ (c = "+"%char \/ c = "-"%char)
    /\ is_digit d1 = true /\ is_digit d2 = true
    /\ is_digit d3 = true /\ is_digit d4 = true.
Proof.
  unfold match_zone, zone_shape. intros H.
  destruct zone as [| c [| d1 [| d2 [| d3 [| d4 rest]]]]]; simpl in H;
    repeat match type of H with
      | context [if ?b then _ else _] => destruct b eqn:?; try discriminate
      end; try discriminate.
  destruct rest; [| discriminate].
  exists c, d1, d2, d3, d4. repeat split; try assumption.
  match goal with
  | Hc : (Ascii.eqb c "+" || Ascii.eqb c "-")%bool = true |- _ =>
      apply orb_true_iff in Hc; destruct Hc as [Hc | Hc];
      apply Ascii.eqb_eq in Hc; auto
  end.
Qed.

(** ** [strpSecs] *)

Lemma bind_Ok_inv {A B : Type} (r : result A) (k : A -> result B) (b : B) :
  bind r k = Ok b -> exists a, r = Ok a /\ k a = Ok b.
Proof. destruct r as [a | e]; simpl; [eauto | discriminate]. Qed.

Lemma Ok_inj {A : Type} (a b : A) : Ok a = Ok b -> a = b.
Proof. intros H. inversion H. reflexivity. Qed.

Lemma try_except_raise_Ok {A : Type} (body : result A) (E e : exn) (x : A) :
  try_except body E (Raise e) = Ok x -> body = Ok x.
Proof.
  destruct body as [a | e']; simpl; [trivial |].
  destruct e', E; discriminate.
Qed.

Lemma is_digit_not_Z (c : ascii) : is_digit c = true -> Ascii.eqb c "Z" = false.
Proof.
  destruct (Ascii.eqb_spec c "Z"%char) as [-> | ]; [discriminate | reflexivity].
Qed.

Lemma is_digit_not_newline (c : ascii) :
  is_digit c = true -> Ascii.eqb c newline = false.
Proof.
  destruct (Ascii.eqb_spec c newline) as [-> | ]; [discriminate | reflexivity].
Qed.

(** The offset of a zone suffix, case by case. *)
Lemma zone_offset_Z (zone : string) :
  starts_with "Z" zone = true -> zone_offset zone = Ok 0.
Proof.
  destruct zone as [| c r]; simpl; [discriminate |].
  unfold zone_offset. simpl. now intros ->.
Qed.

Lemma zone_offset_signed (zone : string) :
  match_zone zone = true ->
  zone_offset zone
  = Ok ((if starts_with "+" zone then -60 else 60) * zone_minutes zone).
Proof.
  intros Hz. unfold zone_offset. rewrite Hz.
  destruct (match_zone_inv zone Hz)
    as (c & d1 & d2 & d3 & d4 & -> & Hc & H1 & H2 & H3 & H4).
  unfold zone_minutes. simpl.
  rewrite H1, H2, H3, H4. simpl.
  destruct Hc as [-> | ->]; reflexivity.
Qed.

Lemma zone_offset_Ok_inv (zone : string) (off : Z) :
  zone_offset zone = Ok off ->
  starts_with "Z" zone = true \/ match_zone zone = true.
Proof.
  unfold zone_offset. destruct zone as [| c r]; simpl; [discriminate |].
  destruct (Ascii.eqb c "Z"); [auto |].
  destruct (match_zone (String c r)); [auto | discriminate].
Qed.

Lemma strpSecs_Ok_inv (s : string) (x : float) :
  strpSecs s = Ok x ->
  exists g1 g2 zone offset tm frac,
    match_iso s = Some (g1, g2, zone)
    /\ zone_offset zone = Ok offset
    /\ strptime_iso g1 = Ok tm
    /\ py_float_of_fraction g2 = Ok frac
    /\ x = (float_of_Z (timegm tm) + frac + float_of_Z offset)%float.
Proof.
  unfold strpSecs. intros H.
  destruct (match_iso s) as [[[g1 g2] zone] |] eqn:Hm; [| discriminate].
  apply try_except_raise_Ok in H. unfold strpSecs_body in H.
  apply bind_Ok_inv in H. destruct H as (offset & Hoff & H).
  apply bind_Ok_inv in H. destruct H as (tm & Htm & H).
  apply bind_Ok_inv in H. destruct H as (secs' & Hsecs & H).
  destruct (match_iso_inv _ _ _ _ Hm) as (ds & -> & _).
  change (0 <? Z.of_nat (String.length (String "."%char ds))) with true in Hsecs.
  cbv iota in Hsecs.
  apply bind_Ok_inv in Hsecs. destruct Hsecs as (frac & Hfrac & Hsecs).
  apply Ok_inj in Hsecs, H. subst secs' x.
  exists g1, (String "."%char ds), zone, offset, tm, frac.
  repeat split; assumption.
Qed.

(** C7. For every text [strpSecs] accepts, the result is the instant of the
    date-time part read as UTC, plus the fraction, plus the offset of the
    zone: for [+HHMM] the offset is minus [HH*60+MM] minutes, so the minutes
    are subtracted; for [-HHMM] they are added; for [+0500] it is 300 minutes
    subtracted; for [Z] the offset is zero. *)
Theorem strpSecs_zone_offset (s : string) (x : float) :
  strpSecs s = Ok x ->
  exists g1 g2 zone tm frac,
    s = (g1 ++ g2 ++ zone)%string
    /\ match_iso s = Some (g1, g2, zone)
    /\ strptime_iso g1 = Ok tm
    /\ py_float_of_fraction g2 = Ok frac
    /\ (starts_with "Z" zone = true \/ match_zone zone = true)
    /\ let naive := (float_of_Z (timegm tm) + frac)%float in
       (starts_with "+" zone = true ->
          x = (naive + float_of_Z (- (60 * zone_minutes zone)))%float)
       /\ (starts_with "-" zone = true ->
             x = (naive + float_of_Z (60 * zone_minutes zone))%float)
       /\ (starts_with "Z" zone = true ->
             x = (naive + float_of_Z 0)%float)
       /\ (zone = "+0500" ->
             x = (naive + float_of_Z (- (60 * 300)))%float).
Proof.
  intros H.
  destruct (strpSecs_Ok_inv s x H)
    as (g1 & g2 & zone & offset & tm & frac & Hm & Hoff & Htm & Hfrac & ->).
  destruct (match_iso_inv _ _ _ _ Hm) as (ds & _ & _ & _ & Hs & _).
  exists g1, g2, zone, tm, frac.
  repeat (split; [first [assumption | eapply zone_offset_Ok_inv; eassumption] |]).
  assert (Hsigned : forall c, starts_with c zone = true ->
            Ascii.eqb c "Z" = false -> match_zone zone = true).
  { intros c Hc HcZ.
    destruct (zone_offset_Ok_inv _ _ Hoff) as [HZ | Hz]; [| exact Hz].
    destruct zone as [| c' r]; [discriminate |]. unfold starts_with in *.
    apply Ascii.eqb_eq in Hc, HZ. subst. discriminate. }
  cbv zeta. repeat split.
  - intros Hp. pose proof (Hsigned _ Hp eq_refl) as Hz.
    rewrite (zone_offset_signed _ Hz), Hp in Hoff.
    apply Ok_inj in Hoff. subst offset.
    replace (-60 * zone_minutes zone) with (- (60 * zone_minutes zone)) by ring.
    reflexivity.
  - intros Hp. pose proof (Hsigned _ Hp eq_refl) as Hz.
    rewrite (zone_offset_signed _ Hz) in Hoff.
    replace (starts_with "+" zone) with false in Hoff.
    + apply Ok_inj in Hoff. subst offset. reflexivity.
    + destruct zone as [| c' r]; [discriminate |].
      unfold starts_with in *. apply Ascii.eqb_eq in Hp. subst c'. reflexivity.
  - intros HZ. rewrite (zone_offset_Z _ HZ) in Hoff.
    apply Ok_inj in Hoff. subst offset. reflexivity.
  - intros ->. vm_compute in Hoff. apply Ok_inj in Hoff. subst offset.
    reflexivity.
Qed.

Lemma strpSecs_zone_offset_witness :
  exists tm frac,
    strptime_iso "2023-11-14T22:13:20" = Ok tm
    /\ py_float_of_fraction ".123" = Ok frac
    /\ 1699982000.123%float
       = (float_of_Z (timegm tm) + frac + float_of_Z (- (60 * 300)))%float.
Proof.
  destruct (strpSecs_zone_offset "2023-11-14T22:13:20.123+0500"
              1699982000.123 eq_refl)
    as (g1 & g2 & zone & tm & frac & _ & Hm & Htm & Hfrac & _ & _ & _ & _ & H).
  vm_compute in Hm. inversion Hm; subst g1 g2 zone.
  exists tm, frac. split; [exact Htm | split; [exact Hfrac | exact (H eq_refl)]].
Defined.

Example strpSecs_plus_0500 :
  strpSecs "2023-11-14T22:13:20.123Z" = Ok 1700000000.123%float
  /\ strpSecs "2023-11-14T22:13:20.123+0500" = Ok 1699982000.123%float
  /\ strpSecs "2023-11-14T22:13:20.123-0500" = Ok 1700018000.123%float.
Proof. repeat split. Qed.

Lemma days_in_month_le_31 (y m : Z) : days_in_month y m <= 31.
Proof.
  unfold days_in_month, days_in_month_common.
  destruct ((m =? 2) && is_leap y); [lia |].
  generalize (Z.to_nat m). intros k.
  do 13 (destruct k as [| k]; [simpl; lia |]).
  destruct k; simpl; lia.
Qed.

(** On a text of the date-time shape, [strptime_iso] succeeds exactly on the
    valid dates and times. *)
Lemma strptime_iso_valid (g1 : string) :
  match_prefix date_time_shape g1 = Some (g1, EmptyString) ->
  strptime_iso g1
  = if valid_date_time g1
    then Ok (mk_struct_time
               (digits_value 0 (slice 0 4 g1)) (digits_value 0 (slice 5 7 g1))
               (digits_value 0 (slice 8 10 g1)) (digits_value 0 (slice 11 13 g1))
               (digits_value 0 (slice 14 16 g1)) (digits_value 0 (slice 17 19 g1)))
    else Raise ValueError.
Proof.
  intros H. unfold strptime_iso, valid_date_time. rewrite H.
  set (y := digits_value 0 (slice 0 4 g1)).
  set (mo := digits_value 0 (slice 5 7 g1)).
  set (d := digits_value 0 (slice 8 10 g1)).
  set (h := digits_value 0 (slice 11 13 g1)).
  set (mi := digits_value 0 (slice 14 16 g1)).
  set (sec := digits_value 0 (slice 17 19 g1)).
  pose proof (days_in_month_le_31 y mo) as Hdim.
  destruct (Z.leb_spec 1 y); destruct (Z.leb_spec 1 mo);
    destruct (Z.leb_spec mo 12); destruct (Z.leb_spec 1 d);
    destruct (Z.leb_spec d (days_in_month y mo)); destruct (Z.leb_spec d 31);
    destruct (h <=? 23); destruct (mi <=? 59); destruct (sec <=? 61);
    cbn [andb]; try reflexivity; lia.
Qed.

Lemma strptime_iso_Ok_inv (g1 : string) (tm : struct_time) :
  strptime_iso g1 = Ok tm ->
  match_prefix date_time_shape g1 = Some (g1, EmptyString)
  /\ valid_date_time g1 = true.
Proof.
  intros H.
  assert (Hshape : match_prefix date_time_shape g1 = Some (g1, EmptyString)).
  { unfold strptime_iso in H.
    destruct (match_prefix date_time_shape g1) as [[m r] |] eqn:Hm;
      [| discriminate].
    destruct r; [| discriminate].
    destruct (match_prefix_sound _ _ _ _ Hm) as [Hg _].
    assert (m = g1) as ->; [| reflexivity].
    rewrite Hg. clear. induction m; simpl; [reflexivity | now f_equal]. }
  split; [exact Hshape |].
  rewrite (strptime_iso_valid _ Hshape) in H.
  destruct (valid_date_time g1); [reflexivity | discriminate].
Qed.

Lemma no_newline_zone (zone : string) :
  String.eqb zone "Z" = true \/ match_zone zone = true ->
  no_newline zone = true.
Proof.
  intros [H | H].
  - apply String.eqb_eq in H. now subst.
  - destruct (match_zone_inv _ H)
      as (c & d1 & d2 & d3 & d4 & -> & Hc & H1 & H2 & H3 & H4).
    simpl.
    rewrite (is_digit_not_newline d1 H1), (is_digit_not_newline d2 H2),
      (is_digit_not_newline d3 H3), (is_digit_not_newline d4 H4).
    destruct Hc as [-> | ->]; reflexivity.
Qed.

(** A text of the specification's grammar that has its fraction is matched by
    the pattern of [strpSecs], with a zone the code knows. *)
Lemma spec_grammar_match_iso (s : string) :
  spec_grammar s = true -> has_fraction s = true ->
  exists ds zone,
    match_iso s = Some (date_time_part s, String "."%char ds, zone)
    /\ ds <> EmptyString /\ all_digits ds = true
    /\ (String.eqb zone "Z" = true \/ match_zone zone = true).
Proof.
  unfold spec_grammar, has_fraction, match_iso, date_time_part.
  destruct (match_prefix date_time_shape s) as [[g1 rest] |]; [| discriminate].
  destruct rest as [| c r]; [discriminate |].
  destruct (Ascii.eqb_spec c "."%char) as [-> | Hne].
  2:{ destruct c as [[] [] [] [] [] [] [] []]; try discriminate.
      now contradiction Hne. }
  destruct (span_digits r) as [ds after] eqn:Hs.
  destruct (span_digits_sound _ _ _ Hs) as [_ [Hd _]].
  destruct ds as [| d ds]; [discriminate |].
  intros Hg _. apply orb_true_iff in Hg.
  rewrite (no_newline_zone _ Hg).
  exists (String d ds), after. repeat split; try assumption. discriminate.
Qed.

Lemma zone_offset_known (zone : string) :
  String.eqb zone "Z" = true \/ match_zone zone = true ->
  exists off, zone_offset zone = Ok off.
Proof.
  intros [H | H].
  - apply String.eqb_eq in H. subst. now exists 0.
  - rewrite (zone_offset_signed _ H). eauto.
Qed.

Lemma py_float_of_fraction_digits (ds : string) :
  ds <> EmptyString -> all_digits ds = true ->
  exists f, py_float_of_fraction (String "."%char ds) = Ok f.
Proof.
  intros Hne Hd. unfold py_float_of_fraction. rewrite Hd.
  destruct ds; [contradiction | eauto].
Qed.

(** C1 (as stated it fails). A text of the grammar whose month is 13 is not a
    date: [time.strptime] refuses it and [strpSecs] raises. *)
Lemma strpSecs_month_13_raises :
  spec_grammar "2023-13-14T22:13:20.5Z" = true
  /\ strpSecs "2023-13-14T22:13:20.5Z" = Raise ValueError.
Proof. split; reflexivity. Qed.

(** C1 (amended). For every text of the grammar that has its fraction,
    [strpSecs] returns a float exactly when the date-time part is a valid
    date and time of day, and raises [ValueError] otherwise. No text at all
    is accepted unless its date-time part is valid. Every text that is not
    of the grammar raises [ValueError], provided that, when it has the
    date-time part and a fraction, what follows the fraction is not empty
    and does not begin with [Z]. Nothing is said of a text of the grammar
    without a fraction. *)
Theorem strpSecs_acceptance (s : string) :
  (spec_grammar s = true -> has_fraction s = true ->
     if valid_date_time (date_time_part s)
     then exists x, strpSecs s = Ok x
     else strpSecs s = Raise ValueError)
  /\ (forall x, strpSecs s = Ok x ->
        valid_date_time (date_time_part s) = true)
  /\ (spec_grammar s = false ->
      has_fraction s = false
      \/ (zone_part s <> EmptyString
          /\ starts_with "Z" (zone_part s) = false) ->
      strpSecs s = Raise ValueError).
Proof.
  split; [| split].
  - intros Hg Hf.
    destruct (spec_grammar_match_iso s Hg Hf) as (ds & zone & Hm & Hne & Hd & Hz).
    destruct (match_iso_inv _ _ _ _ Hm) as (_ & _ & _ & _ & _ & Hp & _).
    destruct (match_prefix_sound _ _ _ _ Hp) as [_ Hshape].
    destruct (zone_offset_known _ Hz) as [off Hoff].
    destruct (py_float_of_fraction_digits _ Hne Hd) as [f Hfr].
    unfold strpSecs. rewrite Hm. unfold strpSecs_body.
    rewrite Hoff, (strptime_iso_valid _ Hshape). cbn [bind].
    destruct (valid_date_time (date_time_part s)).
    + cbn [bind].
      change (0 <? Z.of_nat (String.length (String "."%char ds))) with true.
      cbv iota. rewrite Hfr. cbn [bind try_except]. eauto.
    + reflexivity.
  - intros x Hx.
    destruct (strpSecs_Ok_inv s x Hx)
      as (g1 & g2 & zone & off & tm & frac & Hm & Hoff & Htm & Hfr & _).
    destruct (match_iso_inv _ _ _ _ Hm) as (ds & -> & _ & _ & _ & Hp & _).
    destruct (strptime_iso_Ok_inv _ _ Htm) as [_ Hvalid].
    unfold date_time_part. now rewrite Hp.
  - intros Hg Hother. unfold strpSecs.
    unfold spec_grammar in Hg. unfold has_fraction, zone_part in Hother.
    unfold match_iso.
    destruct (match_prefix date_time_shape s) as [[g1 rest] |];
      [| reflexivity].
    destruct rest as [| c r]; [reflexivity |].
    destruct (Ascii.eqb_spec c "."%char) as [-> | Hne].
    2:{ destruct c as [[] [] [] [] [] [] [] []]; try reflexivity.
        now contradiction Hne. }
    destruct (span_digits r) as [ds after].
    destruct ds as [| d ds]; [reflexivity |].
    destruct Hother as [Hnf | [Hzone HZ]]; [discriminate |].
    apply orb_false_iff in Hg. destruct Hg as [_ Hmz].
    destruct (no_newline after); [| reflexivity].
    unfold strpSecs_body, zone_offset. rewrite Hmz.
    destruct after as [| z after']; [contradiction |].
    cbn [starts_with] in HZ. cbn [str_index0 bind]. rewrite HZ.
    reflexivity.
Qed.

Lemma strpSecs_acceptance_witness :
  (exists x, strpSecs "2023-11-14T22:13:20.5Z" = Ok x)
  /\ strpSecs "2023-02-30T22:13:20.5+0500" = Raise ValueError
  /\ strpSecs "2023-11-14T22:13:20.5 EST" = Raise ValueError
  /\ strpSecs "14 Nov 2023" = Raise ValueError.
Proof.
  split; [| split; [| split]].
  - exact (proj1 (strpSecs_acceptance "2023-11-14T22:13:20.5Z") eq_refl eq_refl).
  - exact (proj1 (strpSecs_acceptance "2023-02-30T22:13:20.5+0500")
             eq_refl eq_refl).
  - refine (proj2 (proj2 (strpSecs_acceptance "2023-11-14T22:13:20.5 EST"))
              eq_refl _).
    right. split; [discriminate | reflexivity].
  - exact (proj2 (proj2 (strpSecs_acceptance "14 Nov 2023"))
             eq_refl (or_introl eq_refl)).
Defined.

(** ** The calendar *)

Lemma is_leap_true_iff (y : Z) :
  is_leap y = true <-> y mod 4 = 0 /\ (y mod 100 <> 0 \/ y mod 400 = 0).
Proof.
  unfold is_leap.
  rewrite andb_true_iff, orb_true_iff, negb_true_iff, !Z.eqb_eq, Z.eqb_neq.
  reflexivity.
Qed.

(** The month and day found for each of the 365 day numbers that reach the
    second half of [_ord2ymd] are right, in a common and in a leap year. *)
Lemma month_day_ok_all (leap : bool) (n : Z) :
  0 <= n < 365 -> month_day_ok leap n = true.
Proof.
  intros Hn.
  assert (H : forallb (fun k => month_day_ok leap (Z.of_nat k)) (seq 0 365) = true)
    by (destruct leap; vm_compute; reflexivity).
  rewrite forallb_forall in H.
  specialize (H (Z.to_nat n)).
  rewrite Z2Nat.id in H by lia. apply H.
  apply in_seq. lia.
Qed.

(** [_ord2ymd] inverts [_ymd2ord] and yields a date of the calendar. *)
Lemma ord2ymd_spec (n y m d : Z) :
  1 <= n -> ord2ymd n = (y, m, d) ->
  1 <= y /\ 1 <= m <= 12 /\ 1 <= d <= days_in_month y m /\ ymd2ord y m d = n.
Proof.
  intros Hn. unfold ord2ymd.
  set (n0 := n - 1).
  set (n400 := n0 / 146097). set (r400 := n0 mod 146097).
  set (n100 := r400 / 36524). set (r100 := r400 mod 36524).
  set (n4 := r100 / 1461). set (r4 := r100 mod 1461).
  set (n1 := r4 / 365). set (r1 := r4 mod 365).
  assert (E400 : n0 = 146097 * n400 + r400 /\ 0 <= r400 < 146097)
    by (split; [apply Z.div_mod | apply Z.mod_pos_bound]; lia).
  assert (E100 : r400 = 36524 * n100 + r100 /\ 0 <= r100 < 36524)
    by (split; [apply Z.div_mod | apply Z.mod_pos_bound]; lia).
  assert (E4 : r100 = 1461 * n4 + r4 /\ 0 <= r4 < 1461)
    by (split; [apply Z.div_mod | apply Z.mod_pos_bound]; lia).
  assert (E1 : r4 = 365 * n1 + r1 /\ 0 <= r1 < 365)
    by (split; [apply Z.div_mod | apply Z.mod_pos_bound]; lia).
  clearbody n400 r400 n100 r100 n4 r4 n1 r1.
  assert (H400 : 0 <= n400) by lia.
  assert (H100 : 0 <= n100 <= 4) by lia.
  assert (H4 : 0 <= n4 <= 24) by lia.
  assert (H1 : 0 <= n1 <= 4) by lia.
  destruct ((n1 =? 4) || (n100 =? 4)) eqn:Hlast.
  - intros H. inversion H; subst y m d. clear H.
    apply orb_true_iff in Hlast. rewrite !Z.eqb_eq in Hlast.
    set (Y := n400 * 400 + 1 + n100 * 100 + n4 * 4 + n1 - 1).
    assert (HL : is_leap Y = true).
    { apply is_leap_true_iff. subst Y.
      Z.to_euclidean_division_equations. lia. }
    unfold ymd2ord, days_in_month, days_before_month.
    fold Y. rewrite HL.
    change (days_in_month_common 12) with 31.
    change (days_before_month_common 12) with 334.
    change ((12 =? 2) && true) with false.
    change ((2 <? 12) && true) with true. cbv iota.
    unfold days_before_year. subst Y.
    repeat split; try lia.
    Z.to_euclidean_division_equations. lia.
  - apply orb_false_iff in Hlast. rewrite !Z.eqb_neq in Hlast.
    set (leapyear := (n1 =? 3) && (negb (n4 =? 24) || (n100 =? 3))).
    set (Y := n400 * 400 + 1 + n100 * 100 + n4 * 4 + n1).
    assert (HL : is_leap Y = leapyear).
    { subst leapyear. destruct (is_leap Y) eqn:HY.
      - apply is_leap_true_iff in HY. symmetry.
        rewrite andb_true_iff, orb_true_iff, negb_true_iff, !Z.eqb_eq, Z.eqb_neq.
        subst Y. Z.to_euclidean_division_equations. lia.
      - symmetry. apply not_true_is_false. intros Ht.
        rewrite andb_true_iff, orb_true_iff, negb_true_iff, !Z.eqb_eq, Z.eqb_neq in Ht.
        assert (is_leap Y = true); [| congruence].
        apply is_leap_true_iff. subst Y.
        Z.to_euclidean_division_equations. lia. }
    pose proof (month_day_ok_all leapyear r1 (proj2 E1)) as Hok.
    unfold month_day_ok in Hok.
    destruct (month_day_of_yday leapyear r1) as [mm dd].
    intros H. inversion H; subst y m d. clear H.
    rewrite !andb_true_iff, !Z.leb_le, Z.eqb_eq in Hok.
    unfold ymd2ord, days_in_month. rewrite HL.
    repeat split; try lia.
    unfold days_before_year. subst Y.
    Z.to_euclidean_division_equations. lia.
Qed.

Lemma days_before_month_nonneg (leap : bool) (m : Z) :
  0 <= days_before_month leap m.
Proof.
  unfold days_before_month, days_before_month_common.
  assert (0 <= nth (Z.to_nat m)
                 [0; 0; 31; 59; 90; 120; 151; 181; 212; 243; 273; 304; 334] 0).
  { generalize (Z.to_nat m). intros k.
    do 13 (destruct k as [| k]; [simpl; lia |]). destruct k; simpl; lia. }
  destruct ((2 <? m) && leap); lia.
Qed.

Lemma ord2ymd_year_max (n y m d : Z) :
  1 <= n <= MAX_ORD -> ord2ymd n = (y, m, d) -> y <= 9999.
Proof.
  intros [Hn Hmax] H.
  destruct (ord2ymd_spec n y m d Hn H) as (Hy & Hm & Hd & Hord).
  pose proof (days_before_month_nonneg (is_leap y) m) as Hdbm.
  unfold ymd2ord, days_before_year, MAX_ORD in *.
  Z.to_euclidean_division_equations. lia.
Qed.

(** ** Decimal digits *)

Lemma digit_cases (k : Z) :
  0 <= k <= 9 ->
  k = 0 \/ k = 1 \/ k = 2 \/ k = 3 \/ k = 4 \/ k = 5 \/ k = 6 \/ k = 7
  \/ k = 8 \/ k = 9.
Proof. lia. Qed.

Lemma is_digit_chr (k : Z) : 0 <= k <= 9 -> is_digit (chr_digit k) = true.
Proof.
  intros H. destruct (digit_cases k H) as [-> | [-> | [-> | [-> | [-> | [-> | [-> | [-> | [-> | ->]]]]]]]]];
    reflexivity.
Qed.

Lemma digit_val_chr (k : Z) : 0 <= k <= 9 -> digit_val (chr_digit k) = k.
Proof.
  intros H. destruct (digit_cases k H) as [-> | [-> | [-> | [-> | [-> | [-> | [-> | [-> | [-> | ->]]]]]]]]];
    reflexivity.
Qed.

Lemma mod_10_digit (n : Z) : 0 <= n mod 10 <= 9.
Proof. pose proof (Z.mod_pos_bound n 10). lia. Qed.

Lemma digits_value_app (a b : string) (acc : Z) :
  digits_value acc (a ++ b) = digits_value (digits_value acc a) b.
Proof. revert acc. induction a as [| c a IH]; intros acc; simpl; [reflexivity | apply IH]. Qed.

Lemma all_digits_app (a b : string) :
  all_digits (a ++ b) = all_digits a && all_digits b.
Proof.
  induction a as [| c a IH]; simpl; [reflexivity |].
  now rewrite IH, andb_assoc.
Qed.

Lemma digits_n_length (k : nat) (n : Z) : String.length (digits_n k n) = k.
Proof.
  revert n. induction k as [| k IH]; intros n; simpl; [reflexivity |].
  rewrite string_app_length, IH. simpl. lia.
Qed.

Lemma digits_n_all_digits (k : nat) (n : Z) : all_digits (digits_n k n) = true.
Proof.
  revert n. induction k as [| k IH]; intros n; simpl; [reflexivity |].
  rewrite all_digits_app, IH. simpl.
  now rewrite (is_digit_chr _ (mod_10_digit n)).
Qed.

Lemma digits_n_value (k : nat) (n : Z) :
  0 <= n < 10 ^ Z.of_nat k -> digits_value 0 (digits_n k n) = n.
Proof.
  revert n. induction k as [| k IH]; intros n Hn.
  - simpl in *. lia.
  - cbn [digits_n]. rewrite digits_value_app, IH.
    + cbn [digits_value]. rewrite (digit_val_chr _ (mod_10_digit n)).
      pose proof (Z.div_mod n 10). lia.
    + rewrite Nat2Z.inj_succ, Z.pow_succ_r in Hn by lia.
      split; [apply Z.div_pos; lia | apply Z.div_lt_upper_bound; lia].
Qed.

Lemma dec_four_digits (y : Z) : 1000 <= y <= 9999 -> dec y = digits_n 4 y.
Proof.
  intros Hy. unfold dec.
  assert (Hlog : 9 <= Z.log2 y) by (apply Z.log2_le_pow2; lia).
  destruct (Z.to_nat (Z.log2 y)) as [| [| [| k]]] eqn:E; try lia.
  cbn [dec_fuel digits_n].
  assert (H1 : (y <? 10) = false) by (apply Z.ltb_ge; lia).
  assert (H2 : (y / 10 <? 10) = false)
    by (apply Z.ltb_ge; apply Z.div_le_lower_bound; lia).
  assert (H3 : (y / 10 / 10 <? 10) = false)
    by (apply Z.ltb_ge; Z.to_euclidean_division_equations; lia).
  assert (H4 : (y / 10 / 10 / 10 <? 10) = true)
    by (apply Z.ltb_lt; Z.to_euclidean_division_equations; lia).
  rewrite H1, H2, H3, H4. reflexivity.
Qed.

(** ** Formatting, then parsing *)

Lemma strftime_default (dt : datetime) :
  1000 <= year dt <= 9999 -> strftime dt default_fmt = iso_text dt.
Proof.
  intros Hy.
  change (strftime dt default_fmt)
    with (dec (year dt) ++ "-" ++ digits_n 2 (month dt) ++ "-"
          ++ digits_n 2 (day dt) ++ "T" ++ digits_n 2 (hour dt) ++ ":"
          ++ digits_n 2 (minute dt) ++ ":" ++ digits_n 2 (second dt)).
  now rewrite (dec_four_digits _ Hy).
Qed.

Lemma iso_text_shape (dt : datetime) :
  match_prefix date_time_shape (iso_text dt) = Some (iso_text dt, EmptyString).
Proof.
  unfold iso_text. cbn [digits_n append].
  unfold date_time_shape.
  repeat (cbn [match_prefix atom_matches];
          first [ rewrite (is_digit_chr _ (mod_10_digit _))
                | change (Ascii.eqb "-" "-") with true
                | change (Ascii.eqb "T" "T") with true
                | change (Ascii.eqb ":" ":") with true ]).
  cbn [match_prefix]. reflexivity.
Qed.

Lemma iso_text_strptime (dt : datetime) :
  1 <= year dt <= 9999 -> 1 <= month dt <= 12 ->
  1 <= day dt <= days_in_month (year dt) (month dt) ->
  0 <= hour dt <= 23 -> 0 <= minute dt <= 59 -> 0 <= second dt <= 59 ->
  strptime_iso (iso_text dt)
  = Ok (mk_struct_time (year dt) (month dt) (day dt)
                       (hour dt) (minute dt) (second dt)).
Proof.
  intros Hy Hm Hd Hh Hmi Hs.
  pose proof (days_in_month_le_31 (year dt) (month dt)) as Hdim.
  rewrite (strptime_iso_valid _ (iso_text_shape dt)).
  unfold valid_date_time.
  change (slice 0 4 (iso_text dt)) with (digits_n 4 (year dt)).
  change (slice 5 7 (iso_text dt)) with (digits_n 2 (month dt)).
  change (slice 8 10 (iso_text dt)) with (digits_n 2 (day dt)).
  change (slice 11 13 (iso_text dt)) with (digits_n 2 (hour dt)).
  change (slice 14 16 (iso_text dt)) with (digits_n 2 (minute dt)).
  change (slice 17 19 (iso_text dt)) with (digits_n 2 (second dt)).
  rewrite !digits_n_value
    by (change (10 ^ Z.of_nat 2) with 100; change (10 ^ Z.of_nat 4) with 10000; lia).
  replace (1 <=? year dt) with true by (symmetry; apply Z.leb_le; lia).
  replace (1 <=? month dt) with true by (symmetry; apply Z.leb_le; lia).
  replace (month dt <=? 12) with true by (symmetry; apply Z.leb_le; lia).
  replace (1 <=? day dt) with true by (symmetry; apply Z.leb_le; lia).
  replace (day dt <=? days_in_month (year dt) (month dt)) with true
    by (symmetry; apply Z.leb_le; lia).
  replace (hour dt <=? 23) with true by (symmetry; apply Z.leb_le; lia).
  replace (minute dt <=? 59) with true by (symmetry; apply Z.leb_le; lia).
  replace (second dt <=? 61) with true by (symmetry; apply Z.leb_le; lia).
  reflexivity.
Qed.

(** The fields of a second count are a valid date and time, and [timegm]
    gives the count back. *)
Lemma civil_of_seconds_inv (t us : Z) (dt : datetime) :
  civil_of_seconds t us = Some dt ->
  1 <= year dt <= 9999 /\ 1 <= month dt <= 12
  /\ 1 <= day dt <= days_in_month (year dt) (month dt)
  /\ 0 <= hour dt <= 23 /\ 0 <= minute dt <= 59 /\ 0 <= second dt <= 59
  /\ microsecond dt = us
  /\ timegm (mk_struct_time (year dt) (month dt) (day dt)
                            (hour dt) (minute dt) (second dt)) = t.
Proof.
  unfold civil_of_seconds.
  destruct ((MIN_ORD <=? EPOCH_ORD + t / 86400)
            && (EPOCH_ORD + t / 86400 <=? MAX_ORD)) eqn:Hr; [| discriminate].
  apply andb_true_iff in Hr. rewrite !Z.leb_le in Hr. unfold MIN_ORD in Hr.
  destruct (ord2ymd (EPOCH_ORD + t / 86400)) as [[y m] d] eqn:Ho.
  intros H. inversion H; subst dt; clear H. cbn [year month day hour minute second microsecond].
  destruct (ord2ymd_spec _ _ _ _ (proj1 Hr) Ho) as (Hy & Hm & Hd & Hord).
  pose proof (ord2ymd_year_max _ _ _ _ Hr Ho) as Hmax.
  pose proof (Z.mod_pos_bound t 86400 ltac:(lia)) as Hrem.
  repeat split; try lia;
    try (Z.to_euclidean_division_equations; lia).
  unfold timegm. cbn [tm_year tm_mon tm_mday tm_hour tm_min tm_sec].
  assert (Hd1 : ymd2ord y m 1 = ymd2ord y m d - d + 1)
    by (unfold ymd2ord; lia).
  rewrite Hd1, Hord.
  Z.to_euclidean_division_equations. lia.
Qed.

Lemma match_iso_fraction_Z (g1 : string) :
  match_prefix date_time_shape g1 = Some (g1, EmptyString) ->
  match_iso (g1 ++ ".0Z") = Some (g1, ".0", "Z").
Proof.
  intros H. unfold match_iso.
  now rewrite (match_prefix_complete _ _ ".0Z" H).
Qed.

(** The seconds [fromtimestamp] takes from a float are its truncation, or
    one off it when the fraction is negative or rounds up to a second. *)
Lemma timeval_of_float_seconds (s : float) (sec us : Z) :
  timeval_of_float s = Ok (sec, us) ->
  py_isfinite s = true
  /\ round_toward_zero s - 1 <= sec <= round_toward_zero s + 1.
Proof.
  unfold timeval_of_float. intros H.
  assert (Hfin : py_isfinite s = true).
  { unfold py_isfinite. destruct (Prim2SF s); try discriminate; reflexivity. }
  split; [exact Hfin |].
  rewrite <- (trunc_SF_round_toward_zero s Hfin).
  set (ip := trunc_SF (Prim2SF s)) in *.
  set (usr := round_half_even_scaled 1 ((s - float_of_Z ip) * 1000000)%float) in *.
  assert (Hb : (let '(sec0, us0) :=
                  if 1000000 <=? usr then (ip + 1, usr - 1000000)
                  else if usr <? 0 then (ip - 1, usr + 1000000) else (ip, usr) in
                if (- 2 ^ 63 <=? sec0) && (sec0 <=? 2 ^ 63)
                then Ok (sec0, us0) else Raise OverflowError) = Ok (sec, us)).
  { destruct (Prim2SF s); try discriminate; exact H. }
  clear H.
  destruct (1000000 <=? usr); [| destruct (usr <? 0)];
    match type of Hb with
    | context [if ?b then _ else _] => destruct b; [| discriminate]
    end; apply Ok_inj in Hb; inversion Hb; lia.
Qed.

Lemma no_dot_app (a b : string) :
  no_dot (a ++ b) = no_dot a && no_dot b.
Proof.
  induction a as [| c a IH]; cbn [append no_dot]; [reflexivity |].
  now rewrite IH, andb_assoc.
Qed.

Lemma is_digit_not_dot (c : ascii) :
  is_digit c = true -> Ascii.eqb c "."%char = false.
Proof.
  intros H. destruct (Ascii.eqb_spec c "."%char) as [-> | _];
    [discriminate H | reflexivity].
Qed.

Lemma all_digits_no_dot (s : string) : all_digits s = true -> no_dot s = true.
Proof.
  induction s as [| c s IH]; cbn [all_digits no_dot]; [reflexivity |].
  intros H. apply andb_true_iff in H. destruct H as [Hc Hs].
  now rewrite (is_digit_not_dot c Hc), (IH Hs).
Qed.

Lemma dec_fuel_all_digits (fuel : nat) (n : Z) (acc : string) :
  all_digits acc = true -> all_digits (dec_fuel fuel n acc) = true.
Proof.
  revert n acc. induction fuel as [| f IH]; intros n acc Hacc;
    cbn [dec_fuel]; [exact Hacc |].
  assert (H : all_digits (String (chr_digit (n mod 10)) acc) = true).
  { cbn [all_digits].
    now rewrite (is_digit_chr _ (mod_10_digit n)), Hacc. }
  destruct (n <? 10); [exact H | now apply IH].
Qed.

(** The text of the default pattern holds no point, whatever the
    date-time. *)
Lemma strftime_default_no_dot (dt : datetime) :
  no_dot (strftime dt default_fmt) = true.
Proof.
  change (strftime dt default_fmt)
    with (dec (year dt) ++ "-" ++ digits_n 2 (month dt) ++ "-"
          ++ digits_n 2 (day dt) ++ "T" ++ digits_n 2 (hour dt) ++ ":"
          ++ digits_n 2 (minute dt) ++ ":" ++ digits_n 2 (second dt)).
  rewrite !no_dot_app.
  rewrite !(all_digits_no_dot _ (digits_n_all_digits 2 _)).
  unfold dec.
  now rewrite (all_digits_no_dot _ (dec_fuel_all_digits _ _ EmptyString eq_refl)).
Qed.

(** The pattern of [strpSecs] matches no text without a point. *)
Lemma no_dot_match_iso (s : string) : no_dot s = true -> match_iso s = None.
Proof.
  intros Hs. unfold match_iso.
  destruct (match_prefix date_time_shape s) as [[g1 rest] |] eqn:Hm;
    [| reflexivity].
  destruct (match_prefix_sound _ _ _ _ Hm) as [-> _].
  rewrite no_dot_app in Hs. apply andb_true_iff in Hs. destruct Hs as [_ Hr].
  destruct rest as [| c r]; [reflexivity |].
  cbn [no_dot] in Hr. apply andb_true_iff in Hr. destruct Hr as [Hc _].
  destruct (Ascii.eqb_spec c "."%char) as [-> | Hne]; [discriminate Hc |].
  destruct c as [[] [] [] [] [] [] [] []]; try reflexivity.
  now contradiction Hne.
Qed.

(** At 1700000000.5 in the zone the library configures. *)
Example format_then_parse_raises :
  strfTime US_Eastern (PyFloat 1700000000.5) default_fmt false
  = Ok (Text "2023-11-14T17:13:20")
  /\ strpSecs ("2023-11-14T17:13:20" ++ "Z") = Raise ValueError.
Proof. split; reflexivity. Qed.

(** C2 (the code fails it). For every float [s] that [strfTime] formats
    with the default pattern, in any zone, the text holds no fraction, and
    with [Z] appended [strpSecs] raises [ValueError]: nothing is recovered.
    The pattern of line 253 makes the fraction mandatory, where line 266
    treats it as optional. *)
Theorem format_then_parse_Z_raises (tz : tzinfo) (s : float) (d : string) :
  strfTime tz (PyFloat s) default_fmt false = Ok (Text d) ->
  no_dot d = true /\ strpSecs (d ++ "Z") = Raise ValueError.
Proof.
  unfold strfTime, strfTime_body, strfTime_datetime.
  destruct (fromtimestamp tz s) as [dt | e]; cbn [bind try_except].
  - intros H. apply Ok_inj in H.
    change (Text (strftime dt default_fmt) = Text d) in H.
    injection H as <-.
    pose proof (strftime_default_no_dot dt) as Hd.
    assert (Hz : no_dot (strftime dt default_fmt ++ "Z") = true)
      by (rewrite no_dot_app, Hd; reflexivity).
    split; [exact Hd |].
    exact (strpSecs_no_match _ (no_dot_match_iso _ Hz)).
  - destruct e; cbn [try_except py_str]; discriminate.
Qed.

Lemma format_then_parse_Z_raises_witness :
  no_dot "2023-11-14T17:13:20" = true
  /\ strpSecs ("2023-11-14T17:13:20" ++ "Z") = Raise ValueError.
Proof.
  exact (format_then_parse_Z_raises US_Eastern 1700000000.5
           "2023-11-14T17:13:20" eq_refl).
Defined.

(** X21. With a fraction added, the text parses, and what comes back is the
    wall clock read as UTC. For every float [s] that [fromtimestamp] places
    in a year from 1000 on, [strfTime] with the default pattern gives the
    19-character wall-clock text of [s] in the home zone; parsed by
    [strpSecs] with [.0Z] appended, that text gives the whole seconds that
    [fromtimestamp] takes from [s], moved by the zone's UTC offset at [s]
    (as a float, to which the zero fraction and the zero offset are added),
    and not [s] truncated; those whole seconds are the truncation of [s] or
    one off it. *)
Theorem format_then_parse (tz : tzinfo) (s : float) (sec us : Z) (dt : datetime) :
  timeval_of_float s = Ok (sec, us) ->
  fromtimestamp tz s = Ok dt ->
  1000 <= year dt ->
  exists d,
    strfTime tz (PyFloat s) default_fmt false = Ok (Text d)
    /\ d = iso_text dt
    /\ strpSecs (d ++ ".0Z")
       = Ok (float_of_Z (sec + utcoffset tz sec) + 0 + 0)%float
    /\ round_toward_zero s - 1 <= sec <= round_toward_zero s + 1.
Proof.
  intros Htv Hft Hy.
  assert (Hciv : civil_of_seconds (sec + utcoffset tz sec) us = Some dt).
  { unfold fromtimestamp in Hft. rewrite Htv in Hft. cbn [bind] in Hft.
    destruct ((gmtime_min <=? sec) && (sec <=? gmtime_max)); [| discriminate].
    destruct (civil_of_seconds sec us); [| discriminate].
    destruct (civil_of_seconds (sec + utcoffset tz sec) us); [| discriminate].
    now apply Ok_inj in Hft; subst. }
  destruct (civil_of_seconds_inv _ _ _ Hciv)
    as (Hyr & Hm & Hd & Hh & Hmi & Hs & _ & Htg).
  exists (iso_text dt).
  split; [| split; [reflexivity | split;
                    [| exact (proj2 (timeval_of_float_seconds _ _ _ Htv))]]].
  - unfold strfTime, strfTime_body, strfTime_datetime.
    rewrite Hft. cbn [bind try_except].
    unfold format_datetime. now rewrite strftime_default by lia.
  - unfold strpSecs.
    rewrite (match_iso_fraction_Z _ (iso_text_shape dt)).
    unfold strpSecs_body.
    change (zone_offset "Z") with (@Ok Z 0). cbn [bind].
    rewrite (iso_text_strptime dt Hyr Hm Hd Hh Hmi Hs). cbn [bind].
    rewrite Htg.
    change (0 <? Z.of_nat (String.length ".0")) with true. cbv iota.
    change (py_float_of_fraction ".0") with (@Ok float 0%float). cbn [bind].
    change (float_of_Z 0) with 0%float.
    reflexivity.
Qed.

Lemma format_then_parse_witness :
  exists d,
    strfTime US_Eastern (PyFloat 1700000000.5) default_fmt false = Ok (Text d)
    /\ d = "2023-11-14T17:13:20"
    /\ strpSecs (d ++ ".0Z") = Ok 1699982000%float.
Proof.
  destruct (format_then_parse US_Eastern 1700000000.5 1700000000 500000
              (mk_datetime 2023 11 14 17 13 20 500000) eq_refl eq_refl
              ltac:(discriminate))
    as (d & Hd & Heq & Hparse & _).
  exists d. split; [exact Hd | split; [exact Heq | exact Hparse]].
Defined.

(** ** The millisecond suffix *)

Lemma substring_all (s : string) : substring 0 (String.length s) s = s.
Proof. induction s as [| c s IH]; simpl; [reflexivity | now rewrite IH]. Qed.

Lemma substring_skip (a b : string) (k : nat) :
  substring (String.length a) k (a ++ b) = substring 0 k b.
Proof. induction a as [| c a IH]; simpl; [reflexivity | exact IH]. Qed.

Lemma last_chars_app (k : nat) (a b : string) :
  String.length b = k -> last_chars k (a ++ b) = b.
Proof.
  intros <-. unfold last_chars.
  rewrite string_app_length.
  replace (String.length a + String.length b - String.length b)%nat
    with (String.length a) by lia.
  now rewrite substring_skip, substring_all.
Qed.

Lemma last_chars_format_3f (x : float) :
  last_chars 4 (format_3f x)
  = String "."%char (digits_n 3 (round_half_even_scaled 1000 x mod 1000)).
Proof.
  unfold format_3f.
  apply last_chars_app. cbn [append String.length].
  now rewrite digits_n_length.
Qed.

Lemma strfTime_numeric (tz : tzinfo) (t : pyval) (fmt : string) (millis : bool)
      (secs : float) (dt : datetime) :
  numeric_seconds t = Ok secs ->
  fromtimestamp tz secs = Ok dt ->
  strfTime tz t fmt millis = Ok (format_datetime dt fmt millis).
Proof.
  unfold strfTime, strfTime_body, strfTime_datetime, numeric_seconds.
  destruct t as [z | b | f | s | | k]; cbn [as_int]; intros H Hft;
    try discriminate.
  - rewrite H. cbn [bind]. now rewrite Hft.
  - rewrite H. cbn [bind]. now rewrite Hft.
  - apply Ok_inj in H; subst. now rewrite Hft.
Qed.

Lemma round_half_even_frac_nearest (num den : Z) :
  0 < den ->
  2 * Z.abs (num - round_half_even_frac num den * den) <= den.
Proof.
  intros Hden. unfold round_half_even_frac.
  pose proof (Z.div_mod num den ltac:(lia)) as Hdm.
  pose proof (Z.mod_pos_bound num den Hden) as Hr.
  destruct (Z.compare_spec (2 * (num mod den)) den) as [He | Hl | Hg].
  - destruct (Z.even (num / den)); nia.
  - nia.
  - nia.
Qed.

Lemma sign_Z_abs_diff (s : bool) (a b den : Z) :
  Z.abs (sign_Z s a - sign_Z s b * den) = Z.abs (a - b * den).
Proof. destruct s; simpl; lia. Qed.

(** [round_half_even_scaled c x] is an integer nearest to [c] times the
    exact value of [x]. *)
Lemma round_half_even_scaled_nearest (c : Z) (x : float) :
  let '(num, den) := exact_fraction x in
  2 * Z.abs (c * num - round_half_even_scaled c x * den) <= den.
Proof.
  unfold exact_fraction, round_half_even_scaled.
  destruct (Prim2SF x) as [sz | si | | s m e];
    try (cbv beta iota zeta; rewrite Z.mul_0_r; simpl; lia).
  destruct (0 <=? e) eqn:He.
  - replace (c * sign_Z s (Z.pos m * 2 ^ e))
      with (sign_Z s (c * Z.pos m * 2 ^ e)) by (destruct s; unfold sign_Z; ring).
    rewrite sign_Z_abs_diff.
    replace (c * Z.pos m * 2 ^ e - c * Z.pos m * 2 ^ e * 1) with 0 by ring.
    simpl. lia.
  - apply Z.leb_gt in He.
    assert (Hden : 0 < 2 ^ (- e)) by (apply Z.pow_pos_nonneg; lia).
    replace (c * sign_Z s (Z.pos m)) with (sign_Z s (c * Z.pos m))
      by (destruct s; unfold sign_Z; ring).
    rewrite sign_Z_abs_diff.
    now apply round_half_even_frac_nearest.
Qed.

(** C4 (as stated it fails). At 123600 microseconds the six-digit fraction
    cut after three digits is [123], but [strfTime] appends [.124]: the
    [.3f] format rounds to nearest. *)
Lemma strfTime_millis_rounds :
  fromtimestamp US_Eastern 1700000000.1236
  = Ok (mk_datetime 2023 11 14 17 13 20 123600)
  /\ spec_truncated_millis 123600 = "123"
  /\ strfTime US_Eastern (PyFloat 1700000000.1236) default_fmt true
     = Ok (Text "2023-11-14T17:13:20.124").
Proof. repeat split. Qed.

(** C4 (amended). For every numeric input whose instant [fromtimestamp]
    accepts, [strfTime] with [millis] set returns the formatted text followed
    by a point and three digits: [microsecond/1000000.0] rounded to the
    nearest thousandth (ties to even) as the [.3f] format does, not cut
    after the third digit: the digits are an integer nearest to 1000 times
    the exact value of that quotient. This is stated where the rounding
    stays below 1.000. *)
Theorem strfTime_millis_suffix (tz : tzinfo) (t : pyval) (fmt : string)
        (secs : float) (dt : datetime) :
  numeric_seconds t = Ok secs ->
  fromtimestamp tz secs = Ok dt ->
  let x := (float_of_Z (microsecond dt) / 1000000)%float in
  let ms := round_half_even_scaled 1000 x in
  0 <= ms < 1000 ->
  strfTime tz t fmt false = Ok (Text (strftime dt fmt))
  /\ strfTime tz t fmt true
     = Ok (Text (strftime dt fmt ++ "." ++ digits_n 3 ms))
  /\ (let '(num, den) := exact_fraction x in
      2 * Z.abs (1000 * num - ms * den) <= den).
Proof.
  intros Hn Hft x ms Hms.
  rewrite !(strfTime_numeric tz t fmt _ secs dt Hn Hft).
  unfold format_datetime. split; [reflexivity | split].
  - rewrite last_chars_format_3f. fold x ms.
    now rewrite (Z.mod_small ms 1000 Hms).
  - exact (round_half_even_scaled_nearest 1000 x).
Qed.

Lemma strfTime_millis_suffix_witness :
  strfTime US_Eastern (PyFloat 1700000000.1236) default_fmt true
  = Ok (Text "2023-11-14T17:13:20.124")
  /\ strfTime US_Eastern (PyInt 1688000000999) default_fmt true
     = Ok (Text "2023-06-28T20:53:20.999").
Proof.
  split.
  - refine (proj1 (proj2
              (strfTime_millis_suffix US_Eastern (PyFloat 1700000000.1236)
                 default_fmt 1700000000.1236
                 (mk_datetime 2023 11 14 17 13 20 123600) eq_refl eq_refl _))).
    vm_compute. split; [discriminate | reflexivity].
  - refine (proj1 (proj2
              (strfTime_millis_suffix US_Eastern (PyInt 1688000000999)
                 default_fmt 1688000000.999
                 (mk_datetime 2023 6 28 20 53 20 999000) eq_refl eq_refl _))).
    vm_compute. split; [discriminate | reflexivity].
Defined.

(** At 999500 microseconds and above the rounding reaches [1.000] and the
    suffix is [.000], the second unchanged. *)
Example strfTime_millis_wraps :
  strfTime US_Eastern (PyFloat 1688000000.9995) default_fmt true
  = Ok (Text "2023-06-28T20:53:20.000").
Proof. reflexivity. Qed.

(** ** [strfTime] by type of argument *)

(** X1. A string that [strpSecs] refuses with [ValueError] is returned as it
    is, whatever the pattern. *)
Theorem strfTime_unparsed_string (tz : tzinfo) (s fmt : string) (millis : bool) :
  strpSecs s = Raise ValueError ->
  strfTime tz (PyStr s) fmt millis = Ok (Text s).
Proof.
  intros H. unfold strfTime, strfTime_body, strfTime_datetime.
  cbn [as_int]. now rewrite H.
Qed.

Lemma strfTime_unparsed_string_witness :
  strfTime US_Eastern (PyStr "garbage-string") default_fmt true
  = Ok (Text "garbage-string").
Proof.
  exact (strfTime_unparsed_string US_Eastern "garbage-string" default_fmt true
           eq_refl).
Defined.

(** X2. A string that [strpSecs] parses is formatted as the instant it
    denotes: the result is that of the parsed float. *)
Theorem strfTime_parsed_string (tz : tzinfo) (s fmt : string) (millis : bool)
        (secs : float) (dt : datetime) :
  strpSecs s = Ok secs ->
  fromtimestamp tz secs = Ok dt ->
  strfTime tz (PyStr s) fmt millis = Ok (format_datetime dt fmt millis)
  /\ strfTime tz (PyStr s) fmt millis = strfTime tz (PyFloat secs) fmt millis.
Proof.
  intros Hs Hft.
  assert (H : strfTime tz (PyStr s) fmt millis
              = Ok (format_datetime dt fmt millis)).
  { unfold strfTime, strfTime_body, strfTime_datetime.
    cbn [as_int]. rewrite Hs. cbn [bind]. now rewrite Hft. }
  split; [exact H |].
  rewrite H. symmetry.
  exact (strfTime_numeric tz (PyFloat secs) fmt millis secs dt eq_refl Hft).
Qed.

Lemma strfTime_parsed_string_witness :
  strfTime US_Eastern (PyStr "2023-11-14T22:13:20.5Z") default_fmt true
  = Ok (Text "2023-11-14T17:13:20.500").
Proof.
  exact (proj1 (strfTime_parsed_string US_Eastern "2023-11-14T22:13:20.5Z"
                  default_fmt true 1700000000.5
                  (mk_datetime 2023 11 14 17 13 20 500000) eq_refl eq_refl)).
Defined.

(** X3. An argument that is no [int], [float] or [str] is not formatted:
    [strfTime] returns [str(t)]. *)
Theorem strfTime_other_type (tz : tzinfo) (t : pyval) (fmt : string)
        (millis : bool) :
  as_int t = None -> isinstance_float t = false -> isinstance_str t = false ->
  strfTime tz t fmt millis = Ok (py_str t).
Proof.
  destruct t; cbn [as_int isinstance_float isinstance_str]; intros Hi Hf Hs;
    try discriminate; reflexivity.
Qed.

Lemma strfTime_other_type_witness :
  strfTime US_Eastern PyNone default_fmt false = Ok (Text "None").
Proof.
  exact (strfTime_other_type US_Eastern PyNone default_fmt false
           eq_refl eq_refl eq_refl).
Defined.

(** ** [verbose_1] *)

(** X4. [verbose_1] returns a level that is never negative: [True] gives 1
    and [False] 0, an integer above 0 is lowered by one and any other
    integer gives 0; a value of another type (a float, a string, [None])
    raises [ValueError]. The level handed down makes [printIf] print exactly
    when the argument was [True] or an integer from 2 on. *)
Theorem verbose_1_level (verbose : pyval) :
  match as_int verbose with
  | Some z =>
      exists level,
        verbose_1 verbose = Ok level
        /\ 0 <= level
        /\ (forall b, verbose = PyBool b -> level = Z.b2z b)
        /\ (verbose = PyInt z -> level = Z.max (z - 1) 0)
        /\ (prints level = true
            <-> verbose = PyBool true \/ (verbose = PyInt z /\ 2 <= z))
  | None => verbose_1 verbose = Raise ValueError
  end.
Proof.
  destruct verbose as [z | b | f | s | | k]; cbn [as_int verbose_1];
    try reflexivity.
  - exists (decrement_level z). unfold decrement_level, prints.
    destruct (Z.ltb_spec 0 z) as [Hz | Hz].
    + repeat split; try lia; try discriminate.
      * intros H0. right. split; [reflexivity |]. apply Z.ltb_lt in H0. lia.
      * intros [Hb | [_ H2]]; [discriminate | apply Z.ltb_lt; lia].
    + repeat split; try lia; try discriminate.
      intros [Hb | [_ H2]]; [discriminate | lia].
  - exists (Z.b2z b). unfold prints.
    destruct b; cbn [Z.b2z]; repeat split; try lia; try discriminate; auto.
    + intros b Hb. now inversion Hb.
    + intros b Hb. now inversion Hb.
    + intros [Hb | [Hb _]]; discriminate.
Qed.

Lemma through_layers_max (k : nat) (verbose : Z) :
  0 <= verbose -> through_layers k verbose = Z.max (verbose - Z.of_nat k) 0.
Proof.
  revert verbose. induction k as [| k IH]; intros verbose Hv.
  - cbn [through_layers]. lia.
  - cbn [through_layers]. rewrite IH.
    + unfold decrement_level. destruct (Z.ltb_spec 0 verbose); lia.
    + unfold decrement_level. destruct (Z.ltb_spec 0 verbose); lia.
Qed.

(** X5. Handed down through [k] layers, an integer level [n >= 0] arrives
    as [max(n - k, 0)]: the layers from depth [n] on are silent, those above
    print, and no level ever turns negative. *)
Theorem verbose_1_through_layers (k : nat) (n : Z) :
  0 <= n ->
  through_layers k n = Z.max (n - Z.of_nat k) 0
  /\ (prints (through_layers k n) = true <-> Z.of_nat k < n)
  /\ verbose_1 (PyInt (through_layers k n)) = Ok (through_layers (S k) n).
Proof.
  intros Hn. rewrite (through_layers_max k n Hn). split; [reflexivity | split].
  - unfold prints. rewrite Z.ltb_lt. lia.
  - cbn [verbose_1]. f_equal.
    rewrite (through_layers_max (S k) n Hn).
    unfold decrement_level.
    destruct (Z.ltb_spec 0 (Z.max (n - Z.of_nat k) 0)); lia.
Qed.

Lemma verbose_1_through_layers_witness :
  through_layers 2 3 = 1 /\ through_layers 5 3 = 0.
Proof.
  split.
  - exact (proj1 (verbose_1_through_layers 2 3 ltac:(discriminate))).
  - exact (proj1 (verbose_1_through_layers 5 3 ltac:(discriminate))).
Defined.

(** ** [credentials] *)

Lemma dict_get_set_same (k : string) (v : json) (items : list (string * json)) :
  dict_get k (dict_set k v items) = v.
Proof.
  induction items as [| [k' v'] rest IH]; cbn [dict_set dict_get].
  - now rewrite String.eqb_refl.
  - destruct (String.eqb k' k) eqn:E; cbn [dict_get]; rewrite E; auto.
Qed.

Lemma dict_get_set_other (k k2 : string) (v : json)
      (items : list (string * json)) :
  k2 <> k -> dict_get k2 (dict_set k v items) = dict_get k2 items.
Proof.
  intros Hne.
  induction items as [| [k' v'] rest IH]; cbn [dict_set dict_get].
  - destruct (String.eqb_spec k k2); [congruence | reflexivity].
  - destruct (String.eqb_spec k' k) as [-> | Hk]; cbn [dict_get].
    + destruct (String.eqb_spec k k2); [congruence | reflexivity].
    + destruct (String.eqb k' k2); [reflexivity | exact IH].
Qed.

(** X6. Without [interactive], [credentials] reads only: whatever it returns
    or raises, the file is as it was and no line of input is consumed. *)
Theorem credentials_reads_only (system : string) (username : option string)
        (w : world) :
  snd (credentials system username false w) = w.
Proof.
  unfold credentials, load_creds.
  destruct (cred_file w) as [| | j]; cbn [negb]; try reflexivity.
  destruct j; try reflexivity.
  unfold find_entry.
  destruct (dict_get system items); reflexivity.
Qed.

(** X7. When the file holds an entry for [system] that is a non-empty
    dictionary, [credentials] asks nothing and writes nothing, with or
    without [interactive]. For a username it returns that name with its
    password, or with [None] when the entry does not list it (no
    [KeyError]); without a username it returns the last pair of the entry,
    as [popitem] does. *)
Theorem credentials_lookup (system : string) (interactive : bool) (w : world)
        (items : list (string * json)) (item : string * json)
        (entry : list (string * json)) :
  cred_file w = Holds (JDict items) ->
  dict_get system items = JDict (item :: entry) ->
  (forall u, credentials system (Some u) interactive w
             = (Returned (u, dict_get u (item :: entry)), w))
  /\ credentials system None interactive w
     = (Returned (last entry item), w).
Proof.
  intros Hf He. unfold credentials, load_creds, find_entry.
  rewrite Hf, He. split; reflexivity.
Qed.

Lemma credentials_lookup_witness :
  let w := mk_world
             (Holds (JDict [("ncs01.case.edu",
                              JDict [("alice", JStr "a1"); ("bob", JStr "b2")])]))
             [] in
  credentials "ncs01.case.edu" (Some "alice") false w
  = (Returned ("alice", JStr "a1"), w)
  /\ credentials "ncs01.case.edu" (Some "carol") false w
     = (Returned ("carol", JNull), w)
  /\ credentials "ncs01.case.edu" None false w
     = (Returned ("bob", JStr "b2"), w).
Proof.
  intros w.
  destruct (credentials_lookup "ncs01.case.edu" false w _ _ _ eq_refl eq_refl)
    as [Hu Hn].
  split; [exact (Hu "alice") | split; [exact (Hu "carol") | exact Hn]].
Defined.

(** X8. Without [interactive], [credentials] returns a pair exactly when the
    file holds a dictionary whose entry for [system] is a non-empty
    dictionary. Otherwise it raises: [FileNotFoundError] when there is no
    file, [KeyError] when the dictionary has no entry for [system] (or
    [null]) and when the entry is empty or no dictionary. *)
Theorem credentials_fails (system : string) (username : option string)
        (w : world) :
  ((exists r, fst (credentials system username false w) = Returned r)
   <-> exists items item entry,
         cred_file w = Holds (JDict items)
         /\ dict_get system items = JDict (item :: entry))
  /\ (cred_file w = NoFile ->
      fst (credentials system username false w) = Raised FileNotFoundError)
  /\ (forall items,
        cred_file w = Holds (JDict items) ->
        (forall item entry, dict_get system items <> JDict (item :: entry)) ->
        fst (credentials system username false w) = Raised KeyError).
Proof.
  unfold credentials, load_creds, find_entry.
  split; [split | split].
  - intros [r Hr].
    destruct (cred_file w) as [| | j]; cbn [negb fst] in Hr; try discriminate.
    destruct j; cbn [fst] in Hr; try discriminate.
    destruct (dict_get system items) as [| | | | | | [| item entry]] eqn:He;
      cbn [negb fst pick_user] in Hr; try discriminate.
    now exists items, item, entry.
  - intros (items & item & entry & Hf & He). rewrite Hf, He.
    cbn [fst pick_user]. destruct username; eauto.
  - now intros ->.
  - intros items Hf Hno. rewrite Hf.
    destruct (dict_get system items) as [| | | | | | [| item entry]] eqn:He;
      try reflexivity.
    now contradiction (Hno item entry).
Qed.

Lemma credentials_fails_witness :
  fst (credentials "host" None false (mk_world NoFile []))
  = Raised FileNotFoundError
  /\ fst (credentials "host" None false
            (mk_world (Holds (JDict [("other", JDict [("u", JStr "p")])])) []))
     = Raised KeyError
  /\ fst (credentials "host" (Some "u") false
            (mk_world (Holds (JDict [("host", JDict [])])) []))
     = Raised KeyError.
Proof.
  split; [| split].
  - exact (proj1 (proj2 (credentials_fails "host" None (mk_world NoFile [])))
             eq_refl).
  - refine (proj2 (proj2 (credentials_fails "host" None
             (mk_world (Holds (JDict [("other", JDict [("u", JStr "p")])])) [])))
             _ eq_refl _).
    intros item entry H; discriminate H.
  - refine (proj2 (proj2 (credentials_fails "host" (Some "u")
             (mk_world (Holds (JDict [("host", JDict [])])) [])))
             _ eq_refl _).
    intros item entry H; discriminate H.
Defined.

(** The call that saves: what it returns and what it leaves. *)
Lemma credentials_saves (system : string) (username : option string)
      (w : world) (items : list (string * json)) (u password : string)
      (rest : list string) :
  cred_file w = Holds (JDict items) ->
  dict_get system items = JNull ->
  ask_entry username (stdin w) = (Some (u, password, true), rest) ->
  credentials system username true w
  = (Returned (u, JStr password),
     mk_world (Holds (JDict (dict_set system (JDict [(u, JStr password)])
                                      items))) rest).
Proof.
  intros Hf He Ha. unfold credentials, load_creds, find_entry.
  rewrite Hf, He. cbn [negb]. rewrite Ha.
  cbn [pick_user dict_get]. now rewrite String.eqb_refl.
Qed.

(** X9. Saving, then looking up. With [interactive], when the file holds a
    dictionary without an entry for [system] and the answers end in yes,
    [credentials] returns the name and password entered and writes the file
    with that one pair as the entry of [system]; every later call for
    [system], with that name or with none, interactive or not, returns the
    same pair without asking and without writing. *)
Theorem credentials_save_then_lookup (system : string)
        (username : option string) (w : world)
        (items : list (string * json)) (u password : string)
        (rest : list string) :
  cred_file w = Holds (JDict items) ->
  dict_get system items = JNull ->
  ask_entry username (stdin w) = (Some (u, password, true), rest) ->
  let saved := dict_set system (JDict [(u, JStr password)]) items in
  let w' := mk_world (Holds (JDict saved)) rest in
  credentials system username true w = (Returned (u, JStr password), w')
  /\ dict_get system saved = JDict [(u, JStr password)]
  /\ (forall interactive,
        credentials system (Some u) interactive w'
        = (Returned (u, JStr password), w')
        /\ credentials system None interactive w'
           = (Returned (u, JStr password), w')).
Proof.
  intros Hf He Ha saved w'.
  assert (Hs : dict_get system saved = JDict [(u, JStr password)])
    by apply dict_get_set_same.
  split; [| split; [exact Hs |]].
  - exact (credentials_saves system username w items u password rest
             Hf He Ha).
  - intros interactive. subst w'.
    unfold credentials, load_creds, find_entry. cbn [cred_file].
    rewrite Hs. cbn [pick_user dict_get last].
    rewrite String.eqb_refl. split; reflexivity.
Qed.

Lemma credentials_save_then_lookup_witness :
  credentials "host" None true
    (mk_world (Holds (JDict [])) ["alice"; "pw"; "maybe"; "pw2"; "yes"; "x"])
  = (Returned ("alice", JStr "pw2"),
     mk_world (Holds (JDict [("host", JDict [("alice", JStr "pw2")])])) ["x"]).
Proof.
  exact (proj1 (credentials_save_then_lookup "host" None
                  (mk_world (Holds (JDict []))
                            ["alice"; "pw"; "maybe"; "pw2"; "yes"; "x"])
                  [] "alice" "pw2" ["x"] eq_refl eq_refl eq_refl)).
Defined.

(** X10. Saving an entry for [system] leaves the other systems as they were:
    after the call of X9 a lookup for any other system gives what it gave
    before. *)
Theorem credentials_save_keeps_others (system other : string)
        (username name : option string) (w : world)
        (items : list (string * json)) (u password : string)
        (rest : list string) :
  cred_file w = Holds (JDict items) ->
  dict_get system items = JNull ->
  ask_entry username (stdin w) = (Some (u, password, true), rest) ->
  other <> system ->
  fst (credentials other name false
         (snd (credentials system username true w)))
  = fst (credentials other name false w).
Proof.
  intros Hf He Ha Hne.
  rewrite (credentials_saves system username w items u password rest
             Hf He Ha).
  cbn [snd].
  unfold credentials, load_creds, find_entry. cbn [cred_file].
  rewrite Hf, (dict_get_set_other system other _ items Hne).
  destruct (dict_get other items); reflexivity.
Qed.

Lemma credentials_save_keeps_others_witness :
  fst (credentials "old" None false
         (snd (credentials "new" (Some "bob") true
                 (mk_world (Holds (JDict [("old", JDict [("al", JStr "p")])]))
                           ["secret"; "y"]))))
  = Returned ("al", JStr "p").
Proof.
  exact (credentials_save_keeps_others "new" "old" (Some "bob") None
           (mk_world (Holds (JDict [("old", JDict [("al", JStr "p")])]))
                     ["secret"; "y"])
           _ "bob" "secret" [] eq_refl eq_refl eq_refl
           ltac:(discriminate)).
Defined.

(** X11. Declining to save: when the answers end in no, [credentials] still
    returns the name and password entered, but the file is as it was, so a
    later call without [interactive] raises [KeyError] as before. *)
Theorem credentials_declined (system : string) (username : option string)
        (w : world) (items : list (string * json)) (u password : string)
        (rest : list string) :
  cred_file w = Holds (JDict items) ->
  dict_get system items = JNull ->
  ask_entry username (stdin w) = (Some (u, password, false), rest) ->
  let w' := mk_world (cred_file w) rest in
  credentials system username true w = (Returned (u, JStr password), w')
  /\ forall name, credentials system name false w' = (Raised KeyError, w').
Proof.
  intros Hf He Ha w'. split.
  - unfold credentials, load_creds, find_entry.
    rewrite Hf, He. cbn [negb]. rewrite Ha. fold w'.
    cbn [pick_user dict_get]. rewrite String.eqb_refl.
    subst w'. now rewrite Hf.
  - intros name. unfold credentials, load_creds, find_entry.
    subst w'. cbn [cred_file]. rewrite Hf, He. reflexivity.
Qed.

Lemma credentials_declined_witness :
  credentials "host" (Some "bob") true
    (mk_world (Holds (JDict [])) ["pw"; "n"])
  = (Returned ("bob", JStr "pw"), mk_world (Holds (JDict [])) []).
Proof.
  exact (proj1 (credentials_declined "host" (Some "bob")
                  (mk_world (Holds (JDict [])) ["pw"; "n"])
                  [] "bob" "pw" [] eq_refl eq_refl eq_refl)).
Defined.

(** ** [buckets]: what the pairs hold *)

Lemma insert_sorted_perm (x : Z) (l : list Z) :
  Permutation (insert_sorted x l) (x :: l).
Proof.
  induction l as [| y r IH]; cbn [insert_sorted]; [reflexivity |].
  destruct (x <=? y); [reflexivity |].
  rewrite IH. apply perm_swap.
Qed.

Lemma list_sort_perm (l : list Z) : Permutation (list_sort l) l.
Proof.
  induction l as [| x r IH]; cbn [list_sort]; [reflexivity |].
  rewrite insert_sorted_perm. now apply perm_skip.
Qed.

Lemma insert_sorted_sorted (x : Z) (l : list Z) :
  StronglySorted Z.le l -> StronglySorted Z.le (insert_sorted x l).
Proof.
  induction 1 as [| y r Hr IH Hy]; cbn [insert_sorted].
  - repeat constructor.
  - destruct (Z.leb_spec x y) as [Hxy | Hxy].
    + constructor; [now constructor |].
      constructor; [exact Hxy |].
      eapply Forall_impl; [| exact Hy]. intros v Hv. cbn beta in Hv. lia.
    + constructor; [exact IH |].
      eapply Permutation_Forall.
      * symmetry. apply insert_sorted_perm.
      * constructor; [lia | exact Hy].
Qed.

(** [lst.sort()] leaves the values in ascending order. *)
Lemma list_sort_sorted (l : list Z) : StronglySorted Z.le (list_sort l).
Proof.
  induction l as [| x r IH]; cbn [list_sort]; [constructor |].
  now apply insert_sorted_sorted.
Qed.

Lemma sorted_perm_unique (l1 l2 : list Z) :
  StronglySorted Z.le l1 -> StronglySorted Z.le l2 -> Permutation l1 l2 ->
  l1 = l2.
Proof.
  intros H1. revert l2.
  induction H1 as [| a t1 Ht1 IH Ha]; intros l2 H2 Hp.
  - now apply Permutation_nil in Hp.
  - destruct l2 as [| b t2].
    + symmetry in Hp. now apply Permutation_nil in Hp.
    + inversion H2 as [| ? ? Ht2 Hb]; subst.
      assert (Hab : a = b).
      { assert (Hin1 : In a (b :: t2))
          by (eapply Permutation_in; [exact Hp | now left]).
        assert (Hin2 : In b (a :: t1))
          by (eapply Permutation_in; [symmetry; exact Hp | now left]).
        rewrite Forall_forall in Ha, Hb.
        destruct Hin1 as [-> | Hin1]; [reflexivity |].
        destruct Hin2 as [-> | Hin2]; [reflexivity |].
        specialize (Ha _ Hin2). specialize (Hb _ Hin1). lia. }
      subst b. f_equal. apply IH; [exact Ht2 |].
      now apply Permutation_cons_inv in Hp.
Qed.

Lemma count_if_perm (f : Z -> bool) (l1 l2 : list Z) :
  Permutation l1 l2 -> count_if f l1 = count_if f l2.
Proof.
  intros Hp. unfold count_if. f_equal.
  apply Permutation_length.
  induction Hp; cbn [filter].
  - reflexivity.
  - destruct (f x); [now apply perm_skip | assumption].
  - destruct (f x), (f y); try reflexivity; apply perm_swap.
  - etransitivity; eassumption.
Qed.

Lemma filter_filter (f g : Z -> bool) (l : list Z) :
  filter g (filter f l) = filter (fun v => f v && g v) l.
Proof.
  induction l as [| v r IH]; cbn [filter]; [reflexivity |].
  destruct (f v); cbn [filter andb]; [destruct (g v) |]; now rewrite IH.
Qed.

(** On ascending values the loop of lines 54 to 59 counts the values below
    the breakpoint and leaves those at or above it. *)
Lemma count_below_sorted (nxt : Z) (l : list Z) (cnt : Z) :
  StronglySorted Z.le l ->
  count_below nxt l cnt
  = (cnt + count_if (fun v => v <? nxt) l, filter (fun v => nxt <=? v) l).
Proof.
  intros Hs. revert cnt.
  induction Hs as [| v r Hr IH Hv]; intros cnt; cbn [count_below].
  - unfold count_if. cbn. f_equal. lia.
  - unfold count_if in *. cbn [filter].
    destruct (Z.ltb_spec v nxt) as [Hlt | Hge].
    + rewrite IH. replace (nxt <=? v) with false by (symmetry; apply Z.leb_gt; lia).
      f_equal. cbn [List.length]. lia.
    + replace (nxt <=? v) with true by (symmetry; apply Z.leb_le; lia).
      assert (Hall : forall x, In x r -> nxt <= x).
      { rewrite Forall_forall in Hv. intros x Hx. specialize (Hv x Hx). lia. }
      assert (Hnone : filter (fun x => x <? nxt) r = []).
      { clear - Hall. induction r as [| x r IH]; [reflexivity |].
        cbn [filter]. replace (x <? nxt) with false
          by (symmetry; apply Z.ltb_ge; apply Hall; now left).
        apply IH. intros y Hy. apply Hall. now right. }
      assert (Hkeep : filter (fun x => nxt <=? x) r = r).
      { clear - Hall. induction r as [| x r IH]; [reflexivity |].
        cbn [filter]. replace (nxt <=? x) with true
          by (symmetry; apply Z.leb_le; apply Hall; now left).
        f_equal. apply IH. intros y Hy. apply Hall. now right. }
      rewrite Hnone, Hkeep. cbn [List.length]. f_equal. lia.
Qed.

Lemma filter_sorted (f : Z -> bool) (l : list Z) :
  StronglySorted Z.le l -> StronglySorted Z.le (filter f l).
Proof.
  induction 1 as [| v r Hr IH Hv]; cbn [filter]; [constructor |].
  destruct (f v); [| exact IH].
  constructor; [exact IH |].
  rewrite Forall_forall in *. intros x Hx.
  apply filter_In in Hx. now apply Hv.
Qed.

Lemma at_least_raise (floor : option Z) (b v : Z) :
  at_least floor v && (b <=? v) = at_least (Some (raise_floor floor b)) v.
Proof.
  destruct floor as [m |]; cbn [at_least raise_floor andb]; [| reflexivity].
  destruct (Z.leb_spec m v), (Z.leb_spec b v), (Z.leb_spec (Z.max m b) v);
    cbn [andb]; try reflexivity; lia.
Qed.

Lemma last_cons (A : Type) (x d : A) (l : list A) :
  last (x :: l) d = last l x.
Proof.
  revert x d. induction l as [| y l IH]; intros x d; [reflexivity |].
  change (last (x :: y :: l) d) with (last (y :: l) d).
  now rewrite !IH.
Qed.

(** The [for] loop of lines 53 to 62, on the ascending values at or above
    the breakpoints already passed. *)
Lemma buckets_loop_spec (lows : list Z) (sorted : list Z) (floor : option Z)
      (low : Z) (acc : list (Z * Z)) :
  StronglySorted Z.le sorted ->
  buckets_loop lows (filter (at_least floor) sorted) low acc
  = ((acc ++ combine (removelast (low :: lows)) (histogram floor lows sorted))%list,
     last lows low).
Proof.
  intros Hs. revert floor low acc.
  induction lows as [| b lows IH]; intros floor low acc.
  - cbn. now rewrite app_nil_r.
  - cbn [buckets_loop].
    rewrite (count_below_sorted b _ 0 (filter_sorted _ _ Hs)).
    rewrite filter_filter.
    rewrite (filter_ext _ _ (fun v => at_least_raise floor b v)).
    rewrite IH. f_equal.
    + rewrite <- app_assoc. f_equal.
      change (removelast (low :: b :: lows)) with (low :: removelast (b :: lows)).
      cbn [histogram combine app]. do 2 f_equal.
      unfold count_if. rewrite filter_filter. lia.
    + symmetry. apply last_cons.
Qed.

Lemma histogram_length (floor : option Z) (lows lst : list Z) :
  List.length (histogram floor lows lst) = List.length lows.
Proof.
  revert floor. induction lows as [| b lows IH]; intros floor;
    cbn [histogram List.length]; [reflexivity | now rewrite IH].
Qed.

Lemma histogram_perm (floor : option Z) (lows l1 l2 : list Z) :
  Permutation l1 l2 -> histogram floor lows l1 = histogram floor lows l2.
Proof.
  intros Hp. revert floor.
  induction lows as [| b lows IH]; intros floor; cbn [histogram];
    [reflexivity |].
  now rewrite IH, (count_if_perm _ _ _ Hp).
Qed.

Lemma filter_all (l : list Z) : filter (at_least None) l = l.
Proof.
  induction l as [| v r IH]; cbn [filter at_least]; [reflexivity | now f_equal].
Qed.

Lemma removelast_length (A : Type) (x : A) (l : list A) :
  List.length (removelast (x :: l)) = List.length l.
Proof.
  revert x. induction l as [| y l IH]; intros x; [reflexivity |].
  change (removelast (x :: y :: l)) with (x :: removelast (y :: l)).
  cbn [List.length]. now rewrite IH.
Qed.

Lemma removelast_then_last (A : Type) (x : A) (l : list A) :
  (removelast (x :: l) ++ [last l x])%list = x :: l.
Proof.
  revert x. induction l as [| y l IH]; intros x; [reflexivity |].
  change (removelast (x :: y :: l)) with (x :: removelast (y :: l)).
  rewrite last_cons.
  cbn [app]. now rewrite IH.
Qed.

Lemma combine_append (A B : Type) (l1 l2 : list A) (m1 m2 : list B) :
  List.length l1 = List.length m1 ->
  combine (l1 ++ l2) (m1 ++ m2) = (combine l1 m1 ++ combine l2 m2)%list.
Proof.
  revert m1. induction l1 as [| a l1 IH]; intros [| b m1] H;
    try discriminate H; [reflexivity |].
  cbn [app combine]. f_equal. apply IH. now injection H.
Qed.

(** [buckets] in closed form: the lows are the least value (0 without
    values) followed by the breakpoints, the counts the histogram followed
    by [len(lst) - 1]. *)
Lemma buckets_closed_form (lst lows : list Z) :
  buckets lst lows
  = combine ((match list_sort lst with v :: _ => v | [] => 0 end) :: lows)
            (histogram None lows lst ++ [Z.of_nat (List.length lst) - 1])%list.
Proof.
  unfold buckets.
  set (low := match list_sort lst with v :: _ => v | [] => 0 end).
  pose proof (buckets_loop_spec lows (list_sort lst) None low []
                (list_sort_sorted lst)) as H.
  rewrite filter_all in H. rewrite H. cbn [app].
  rewrite list_sort_length, (histogram_perm None lows _ _ (list_sort_perm lst)).
  rewrite <- (removelast_then_last Z low lows) at 2.
  rewrite combine_append; [reflexivity |].
  now rewrite removelast_length, histogram_length.
Qed.

Lemma map_fst_combine_eq (A B : Type) (l : list A) (m : list B) :
  List.length l = List.length m -> map fst (combine l m) = l.
Proof.
  revert m. induction l as [| a l IH]; intros [| b m] H;
    try discriminate H; [reflexivity |].
  cbn [combine map fst]. f_equal. apply IH. now injection H.
Qed.

Lemma map_snd_combine_eq (A B : Type) (l : list A) (m : list B) :
  List.length l = List.length m -> map snd (combine l m) = m.
Proof.
  revert m. induction l as [| a l IH]; intros [| b m] H;
    try discriminate H; [reflexivity |].
  cbn [combine map snd]. f_equal. apply IH. now injection H.
Qed.

(** The first value of an ascending list is its least. *)
Lemma list_sort_head (lst : list Z) :
  match list_sort lst with
  | [] => lst = []
  | first :: _ => In first lst /\ forall v, In v lst -> first <= v
  end.
Proof.
  pose proof (list_sort_perm lst) as Hp.
  pose proof (list_sort_sorted lst) as Hs.
  destruct (list_sort lst) as [| first r].
  - now apply Permutation_nil in Hp.
  - split.
    + eapply Permutation_in; [exact Hp | now left].
    + intros v Hv.
      apply (Permutation_in _ (Permutation_sym Hp)) in Hv.
      inversion Hs as [| ? ? _ Hall]; subst.
      destruct Hv as [-> | Hv]; [lia |].
      rewrite Forall_forall in Hall. now apply Hall.
Qed.

(** X12. What [buckets] returns, whatever the order of the values and of
    the breakpoints: one pair more than there are breakpoints; the lows are
    the least value (0 when there is no value) followed by the breakpoints;
    the count beside breakpoint [b] is the number of values below [b] and
    not below any earlier breakpoint; the count of the last pair is
    [len(lst) - 1]. *)
Theorem buckets_histogram (lst lows : list Z) :
  exists first : Z,
    buckets lst lows
    = combine (first :: lows)
              (histogram None lows lst ++ [Z.of_nat (List.length lst) - 1])%list
    /\ map fst (buckets lst lows) = first :: lows
    /\ map snd (buckets lst lows)
       = (histogram None lows lst ++ [Z.of_nat (List.length lst) - 1])%list
    /\ match lst with
       | [] => first = 0
       | _ :: _ => In first lst /\ forall v, In v lst -> first <= v
       end.
Proof.
  exists (match list_sort lst with v :: _ => v | [] => 0 end).
  assert (Hlen : List.length
                   ((match list_sort lst with v :: _ => v | [] => 0 end) :: lows)
                 = List.length (histogram None lows lst
                                ++ [Z.of_nat (List.length lst) - 1])%list).
  { rewrite length_app, histogram_length. cbn [List.length]. lia. }
  rewrite buckets_closed_form.
  split; [reflexivity |].
  split; [now apply map_fst_combine_eq |].
  split; [now apply map_snd_combine_eq |].
  pose proof (list_sort_head lst) as Hh.
  destruct (list_sort lst) as [| first r].
  - now subst lst.
  - destruct lst as [| x l]; [now destruct Hh |]. exact Hh.
Qed.

Lemma count_if_split (p q : Z -> bool) (l : list Z) :
  (forall v, p v && q v = false) ->
  count_if p l + count_if q l = count_if (fun v => p v || q v) l.
Proof.
  intros Hd. unfold count_if.
  induction l as [| v r IH]; [reflexivity |].
  cbn [filter]. specialize (Hd v).
  destruct (p v), (q v); cbn [orb andb] in *; try discriminate;
    cbn [List.length]; lia.
Qed.

Lemma count_if_ext (p q : Z -> bool) (l : list Z) :
  (forall v, p v = q v) -> count_if p l = count_if q l.
Proof.
  intros H. unfold count_if. now rewrite (filter_ext p q H).
Qed.

Lemma histogram_total (floor : option Z) (lows lst : list Z) :
  total (histogram floor lows lst)
  = count_if (fun v => at_least floor v && below_some lows v) lst.
Proof.
  revert floor. induction lows as [| b lows IH]; intros floor.
  - cbn [histogram total fold_right below_some existsb].
    unfold count_if.
    rewrite (filter_ext _ (fun _ => false)) by (intros v; apply andb_false_r).
    now induction lst.
  - cbn [histogram total fold_right]. fold (total (histogram (Some (raise_floor floor b)) lows lst)).
    rewrite IH, count_if_split.
    + apply count_if_ext. intros v.
      rewrite <- at_least_raise. cbn [below_some existsb].
      fold (below_some lows v).
      destruct (at_least floor v), (below_some lows v),
        (Z.ltb_spec v b), (Z.leb_spec b v); cbn [andb orb];
        try reflexivity; lia.
    + intros v. rewrite <- at_least_raise.
      destruct (at_least floor v), (below_some lows v),
        (Z.ltb_spec v b), (Z.leb_spec b v); cbn [andb orb];
        try reflexivity; lia.
Qed.

Lemma buckets_counts (lst lows : list Z) :
  map snd (removelast (buckets lst lows)) = histogram None lows lst.
Proof.
  rewrite buckets_closed_form.
  set (low := match list_sort lst with v :: _ => v | [] => 0 end).
  rewrite <- (removelast_then_last Z low lows) at 1.
  rewrite combine_append
    by now rewrite removelast_length, histogram_length.
  cbn [combine]. rewrite removelast_last.
  apply map_snd_combine_eq.
  now rewrite removelast_length, histogram_length.
Qed.

(** X13. The counts of all pairs but the last add up to the number of
    values that are below some breakpoint: each such value is counted in
    exactly one bucket, and a value at or above every breakpoint in none. *)
Theorem buckets_counts_total (lst lows : list Z) :
  total (map snd (removelast (buckets lst lows)))
  = count_if (below_some lows) lst.
Proof.
  rewrite buckets_counts, histogram_total. now apply count_if_ext.
Qed.

(** X14. The result does not depend on the order of the values. *)
Theorem buckets_order_independent (lst1 lst2 lows : list Z) :
  Permutation lst1 lst2 -> buckets lst1 lows = buckets lst2 lows.
Proof.
  intros Hp.
  assert (Hs : list_sort lst1 = list_sort lst2).
  { apply sorted_perm_unique; try apply list_sort_sorted.
    rewrite !list_sort_perm. exact Hp. }
  unfold buckets. now rewrite Hs.
Qed.

Lemma buckets_order_independent_witness :
  buckets [5; 1; 3] [2; 4] = buckets [1; 3; 5] [2; 4].
Proof.
  apply (buckets_order_independent [5; 1; 3] [1; 3; 5] [2; 4]).
  apply Permutation_sym.
  apply (perm_trans (l' := [1; 5; 3])).
  - apply perm_skip. apply perm_swap.
  - apply perm_swap.
Defined.









(** ** What [strpSecs], [fromTimeStamp] and [strfTime] raise *)

Lemma span_digits_complete (ds : string) :
  all_digits ds = true -> span_digits ds = (ds, EmptyString).
Proof.
  induction ds as [| c ds IH]; cbn [all_digits span_digits]; [reflexivity |].
  intros H. apply andb_true_iff in H. destruct H as [Hc Hd].
  now rewrite Hc, (IH Hd).
Qed.

Lemma zone_offset_raises (zone : string) (e : exn) :
  zone_offset zone = Raise e ->
  (zone = EmptyString /\ e = IndexError)
  \/ (zone <> EmptyString /\ e = ValueError).
Proof.
  unfold zone_offset. destruct zone as [| c r]; cbn [str_index0 bind].
  - intros H. left. split; [reflexivity | congruence].
  - intros H. right. split; [discriminate |].
    destruct (Ascii.eqb c "Z"); [discriminate |].
    destruct (match_zone (String c r)); [| congruence].
    destruct (py_int_of_str (slice 1 3 (String c r))) as [hh | e1] eqn:H1;
      cbn [bind] in H.
    + destruct (py_int_of_str (slice 3 5 (String c r))) as [mm | e2] eqn:H2;
        cbn [bind] in H; [discriminate |].
      unfold py_int_of_str in H2.
      destruct (slice 3 5 (String c r)); [congruence |].
      destruct (all_digits _); congruence.
    + unfold py_int_of_str in H1.
      destruct (slice 1 3 (String c r)); [congruence |].
      destruct (all_digits _); congruence.
Qed.

Lemma strptime_iso_raises (g1 : string) (e : exn) :
  strptime_iso g1 = Raise e -> e = ValueError.
Proof.
  unfold strptime_iso.
  destruct (match_prefix date_time_shape g1) as [[m [| c r]] |];
    try congruence.
  repeat match goal with
         | |- context [if ?b then _ else _] => destruct b
         end; congruence.
Qed.

Lemma py_float_of_fraction_raises (g2 : string) (e : exn) :
  py_float_of_fraction g2 = Raise e -> e = ValueError.
Proof.
  unfold py_float_of_fraction.
  destruct g2 as [| c ds]; [congruence |].
  destruct (Ascii.eqb c "."%char) eqn:Hc.
  - apply Ascii.eqb_eq in Hc. subst c.
    destruct ds; [congruence |].
    destruct (all_digits _); congruence.
  - destruct c as [[] [] [] [] [] [] [] []]; try congruence; discriminate.
Qed.

Lemma strpSecs_body_raises (g1 g2 zone : string) (e : exn) :
  strpSecs_body g1 g2 zone = Raise e ->
  (zone = EmptyString /\ e = IndexError) \/ e = ValueError.
Proof.
  unfold strpSecs_body.
  destruct (zone_offset zone) as [off | e0] eqn:Hz; cbn [bind].
  - destruct (strptime_iso g1) as [tm | e1] eqn:Htm; cbn [bind].
    + destruct (0 <? Z.of_nat (String.length g2)); cbn [bind];
        [| discriminate].
      destruct (py_float_of_fraction g2) as [f | e2] eqn:Hf; cbn [bind];
        [discriminate |].
      intros H. right.
      apply (py_float_of_fraction_raises g2). congruence.
    + intros H. right. apply (strptime_iso_raises g1). congruence.
  - intros H. assert (e0 = e) by congruence. subst e0.
    destruct (zone_offset_raises _ _ Hz) as [[Hzone He] | [_ He]]; auto.
Qed.

Lemma strpSecs_raises_only (s : string) (e : exn) :
  strpSecs s = Raise e -> e = ValueError \/ e = IndexError.
Proof.
  unfold strpSecs.
  destruct (match_iso s) as [[[g1 g2] zone] |] eqn:Hm;
    [| intros H; left; congruence].
  destruct (strpSecs_body g1 g2 zone) as [x | e0] eqn:Hb;
    cbn [try_except]; [discriminate |].
  destruct (strpSecs_body_raises _ _ _ _ Hb) as [[_ He] | He]; subst e0.
  - intros H. right. congruence.
  - intros H. left. congruence.
Qed.

Lemma string_cons_app (c : ascii) (a : string) :
  (String c a ++ EmptyString)%string = String c a.
Proof.
  induction a as [| x a IH] in c |- *; cbn [append]; [reflexivity |].
  f_equal. apply IH.
Qed.

(** X17. [strpSecs] raises nothing but [ValueError] and [IndexError], and
    [IndexError] exactly for a text that ends with its fraction: the
    date-time shape, a point and digits, and no zone. That holds whether or
    not the date is a valid one, the zone being looked at first. *)
Theorem strpSecs_raises (s : string) :
  (strpSecs s = Raise IndexError <->
     exists g1 ds,
       match_prefix date_time_shape g1 = Some (g1, EmptyString)
       /\ ds <> EmptyString /\ all_digits ds = true
       /\ s = (g1 ++ String "."%char ds)%string)
  /\ (forall e, strpSecs s = Raise e -> e = ValueError \/ e = IndexError).
Proof.
  split; [split | exact (strpSecs_raises_only s)].
  - unfold strpSecs.
    destruct (match_iso s) as [[[g1 g2] zone] |] eqn:Hm; [| discriminate].
    destruct (strpSecs_body g1 g2 zone) as [x | e] eqn:Hb;
      cbn [try_except]; [discriminate |].
    destruct (strpSecs_body_raises _ _ _ _ Hb) as [[Hzone He] | He]; subst e;
      [| discriminate].
    intros _. subst zone.
    destruct (match_iso_inv _ _ _ _ Hm)
      as (ds & -> & Hne & Hd & Hs & Hp & _).
    destruct (match_prefix_sound _ _ _ _ Hp) as [_ Hshape].
    exists g1, ds. repeat split; try assumption.
    rewrite Hs. f_equal. apply string_cons_app.
  - intros (g1 & ds & Hshape & Hne & Hd & ->).
    unfold strpSecs, match_iso.
    rewrite (match_prefix_complete _ _ (String "."%char ds) Hshape).
    rewrite (span_digits_complete _ Hd).
    destruct ds as [| c ds]; [contradiction |].
    cbn [no_newline]. reflexivity.
Qed.

Lemma timeval_of_float_raises (d : float) (e : exn) :
  timeval_of_float d = Raise e -> e = ValueError \/ e = OverflowError.
Proof.
  unfold timeval_of_float.
  destruct (Prim2SF d); try (intros H; left; congruence);
    try (intros H; right; congruence);
    repeat match goal with
           | |- context [if ?b then _ else _] => destruct b
           end; intros H; try discriminate; right; congruence.
Qed.

Lemma fromtimestamp_raises (tz : tzinfo) (t : float) (e : exn) :
  fromtimestamp tz t = Raise e ->
  e = ValueError \/ e = OverflowError \/ e = OSError.
Proof.
  unfold fromtimestamp.
  destruct (timeval_of_float t) as [[sec us] | e0] eqn:Htv; cbn [bind].
  - destruct ((gmtime_min <=? sec) && (sec <=? gmtime_max));
      [| intros H; right; right; congruence].
    destruct (civil_of_seconds sec us); [| intros H; left; congruence].
    destruct (civil_of_seconds (sec + utcoffset tz sec) us);
      [discriminate | intros H; right; left; congruence].
  - intros H. assert (e0 = e) by congruence. subst e0.
    destruct (timeval_of_float_raises _ _ Htv); auto.
Qed.

Lemma millisToSecs_raises (z : Z) (delta : float) (e : exn) :
  millisToSecs z delta = Raise e -> e = OverflowError.
Proof.
  unfold millisToSecs, int_to_float.
  destruct (PrimFloat.is_infinity (float_of_Z z)); cbn [bind];
    [congruence | discriminate].
Qed.

(** X18. What escapes [strfTime]: never [OSError], which its handler turns
    into [str(t)], and never [TypeError]. For a string it is [IndexError]
    (from [strpSecs]) or [OverflowError] (from [fromtimestamp]), never
    [ValueError], which the inner handler turns into the string itself; for
    any other argument it is [ValueError] or [OverflowError]. *)
Theorem strfTime_raises (tz : tzinfo) (t : pyval) (fmt : string)
        (millis : bool) (e : exn) :
  strfTime tz t fmt millis = Raise e ->
  if isinstance_str t
  then e = IndexError \/ e = OverflowError
  else e = ValueError \/ e = OverflowError.
Proof.
  unfold strfTime, strfTime_body, strfTime_datetime.
  destruct t as [z | b | f | s | | k];
    cbn [as_int isinstance_str]; try discriminate.
  - destruct (millisToSecs z 0) as [secs | e0] eqn:Hm; cbn [bind].
    + destruct (fromtimestamp tz secs) as [dt | e1] eqn:Hf;
        cbn [bind try_except]; [discriminate |].
      destruct (fromtimestamp_raises _ _ _ Hf) as [-> | [-> | ->]];
        cbn [try_except]; intros H; try discriminate;
        [left | right]; congruence.
    + rewrite (millisToSecs_raises _ _ _ Hm). cbn [try_except].
      intros H. right. congruence.
  - destruct (millisToSecs (Z.b2z b) 0) as [secs | e0] eqn:Hm; cbn [bind].
    + destruct (fromtimestamp tz secs) as [dt | e1] eqn:Hf;
        cbn [bind try_except]; [discriminate |].
      destruct (fromtimestamp_raises _ _ _ Hf) as [-> | [-> | ->]];
        cbn [try_except]; intros H; try discriminate;
        [left | right]; congruence.
    + rewrite (millisToSecs_raises _ _ _ Hm). cbn [try_except].
      intros H. right. congruence.
  - destruct (fromtimestamp tz f) as [dt | e1] eqn:Hf;
      cbn [bind try_except]; [discriminate |].
    destruct (fromtimestamp_raises _ _ _ Hf) as [-> | [-> | ->]];
      cbn [try_except]; intros H; try discriminate;
      [left | right]; congruence.
  - destruct (strpSecs s) as [secs | e0] eqn:Hs; cbn [bind].
    + destruct (fromtimestamp tz secs) as [dt | e1] eqn:Hf;
        cbn [bind try_except]; [discriminate |].
      destruct (fromtimestamp_raises _ _ _ Hf) as [-> | [-> | ->]];
        cbn [try_except bind]; intros H; try discriminate.
      right. congruence.
    + destruct (strpSecs_raises_only s _ Hs) as [-> | ->];
        cbn [try_except bind]; intros H; try discriminate.
      left. congruence.
Qed.

Lemma strfTime_raises_witness :
  strfTime US_Eastern (PyFloat nan) default_fmt false = Raise ValueError
  /\ (ValueError = ValueError \/ ValueError = OverflowError).
Proof.
  split; [reflexivity |].
  exact (strfTime_raises US_Eastern (PyFloat nan) default_fmt false ValueError
           eq_refl).
Defined.

(** X19. The date-time [fromTimeStamp] returns is the wall clock of the
    home zone: its fields are a valid date and time of day, its
    microseconds those taken from the float, and read back as a UTC count
    of seconds they give the whole seconds of the instant (the float
    truncated, or one off it) plus the zone's offset at that instant.
    [strfTime] formats a float through that same date-time. *)
Theorem fromTimeStamp_wall_clock (tz : tzinfo) (t : float) (dt : datetime) :
  fromTimeStamp tz t = Ok dt ->
  exists sec us,
    timeval_of_float t = Ok (sec, us)
    /\ round_toward_zero t - 1 <= sec <= round_toward_zero t + 1
    /\ 1 <= year dt <= 9999 /\ 1 <= month dt <= 12
    /\ 1 <= day dt <= days_in_month (year dt) (month dt)
    /\ 0 <= hour dt <= 23 /\ 0 <= minute dt <= 59 /\ 0 <= second dt <= 59
    /\ microsecond dt = us
    /\ timegm (mk_struct_time (year dt) (month dt) (day dt)
                              (hour dt) (minute dt) (second dt))
       = sec + utcoffset tz sec
    /\ forall fmt millis,
         strfTime tz (PyFloat t) fmt millis
         = Ok (format_datetime dt fmt millis).
Proof.
  unfold fromTimeStamp. intros Hft.
  pose proof Hft as H. unfold fromtimestamp in H.
  destruct (timeval_of_float t) as [[sec us] | e0] eqn:Htv; cbn [bind] in H;
    [| discriminate].
  destruct ((gmtime_min <=? sec) && (sec <=? gmtime_max)); [| discriminate].
  destruct (civil_of_seconds sec us); [| discriminate].
  destruct (civil_of_seconds (sec + utcoffset tz sec) us) as [dt' |] eqn:Hciv;
    [| discriminate].
  apply Ok_inj in H. subst dt'.
  destruct (civil_of_seconds_inv _ _ _ Hciv)
    as (Hyr & Hm & Hd & Hh & Hmi & Hs & Hus & Htg).
  exists sec, us.
  split; [reflexivity |].
  split; [exact (proj2 (timeval_of_float_seconds _ _ _ Htv)) |].
  repeat (split; [assumption |]).
  intros fmt millis.
  exact (strfTime_numeric tz (PyFloat t) fmt millis t dt eq_refl Hft).
Qed.

Lemma fromTimeStamp_wall_clock_witness :
  exists sec us,
    timeval_of_float 1700000000.5 = Ok (sec, us)
    /\ timegm (mk_struct_time 2023 11 14 17 13 20) = sec + utcoffset US_Eastern sec.
Proof.
  destruct (fromTimeStamp_wall_clock US_Eastern 1700000000.5
              (mk_datetime 2023 11 14 17 13 20 500000) eq_refl)
    as (sec & us & Htv & _ & _ & _ & _ & _ & _ & _ & _ & Htg & _).
  exists sec, us. split; [exact Htv | exact Htg].
Defined.

(** ** The zone [Z] *)

Lemma span_digits_app (ds r : string) :
  all_digits ds = true ->
  match r with String c _ => is_digit c = false | EmptyString => True end ->
  span_digits (ds ++ r) = (ds, r).
Proof.
  intros Hd Hr. induction ds as [| c ds IH]; cbn [append].
  - destruct r as [| c r]; [reflexivity |]. cbn [span_digits]. now rewrite Hr.
  - cbn [all_digits] in Hd. apply andb_true_iff in Hd. destruct Hd as [Hc Hd].
    cbn [span_digits]. now rewrite Hc, (IH Hd).
Qed.

Lemma match_iso_zone (g1 ds zone : string) :
  match_prefix date_time_shape g1 = Some (g1, EmptyString) ->
  ds <> EmptyString -> all_digits ds = true ->
  match zone with String c _ => is_digit c = false | EmptyString => True end ->
  no_newline zone = true ->
  match_iso (g1 ++ String "."%char ds ++ zone)
  = Some (g1, String "."%char ds, zone).
Proof.
  intros Hshape Hne Hd Hz Hn. unfold match_iso.
  rewrite (match_prefix_complete _ _ (String "."%char ds ++ zone) Hshape).
  cbn [append]. rewrite (span_digits_app _ _ Hd Hz), Hn.
  destruct ds; [contradiction | reflexivity].
Qed.

(** X20. As the docstring says, [Z] is read as the zone 0000: a text with
    the zone [+0000] or [-0000] gives what the same text gives with [Z].
    Whatever follows the [Z] on the same line is ignored. *)
Theorem strpSecs_Z_is_0000 (g1 ds junk : string) :
  match_prefix date_time_shape g1 = Some (g1, EmptyString) ->
  ds <> EmptyString -> all_digits ds = true ->
  no_newline junk = true ->
  strpSecs (g1 ++ String "."%char ds ++ "+0000")
  = strpSecs (g1 ++ String "."%char ds ++ "Z")
  /\ strpSecs (g1 ++ String "."%char ds ++ "-0000")
     = strpSecs (g1 ++ String "."%char ds ++ "Z")
  /\ strpSecs (g1 ++ String "."%char ds ++ String "Z"%char junk)
     = strpSecs (g1 ++ String "."%char ds ++ "Z").
Proof.
  intros Hshape Hne Hd Hj.
  unfold strpSecs.
  rewrite (match_iso_zone g1 ds "Z" Hshape Hne Hd eq_refl eq_refl).
  rewrite (match_iso_zone g1 ds "+0000" Hshape Hne Hd eq_refl eq_refl).
  rewrite (match_iso_zone g1 ds "-0000" Hshape Hne Hd eq_refl eq_refl).
  rewrite (match_iso_zone g1 ds (String "Z"%char junk) Hshape Hne Hd eq_refl)
    by (cbn [no_newline]; exact Hj).
  unfold strpSecs_body.
  rewrite (zone_offset_Z (String "Z"%char junk) eq_refl).
  change (zone_offset "Z") with (@Ok Z 0).
  change (zone_offset "+0000") with (@Ok Z 0).
  change (zone_offset "-0000") with (@Ok Z 0).
  repeat split.
Qed.

Lemma strpSecs_Z_is_0000_witness :
  strpSecs "2023-11-14T22:13:20.5+0000" = strpSecs "2023-11-14T22:13:20.5Z"
  /\ strpSecs "2023-11-14T22:13:20.5Z and more"
     = strpSecs "2023-11-14T22:13:20.5Z".
Proof.
  destruct (strpSecs_Z_is_0000 "2023-11-14T22:13:20" "5" " and more"
              eq_refl ltac:(discriminate) eq_refl eq_refl) as (Hp & _ & Hj).
  split; [exact Hp | exact Hj].
Defined.
